(** * Resource accounting of the autoscaling scheduler plugin

    A shallow embedding of the resource ledgers of the scheduler plugin
    (package [plugin]): the per-resource transitions of
    [resourceTransitioner] (permit replay, agent requests, deletion,
    migration start, limit updates) and the node-level helpers of
    [state.go] ([tooMuchPressure], [subPod], [startMigration]).

    Conventions of the embedding:
    - a value of an unsigned Go type [T] is a [Z] in [0, 2^bits); every
      arithmetic operation of the source is written with its wrap-around;
    - a method that mutates [*r.node] and [*r.pod] in place is a function
      from the pair of ledgers before the call to the pair after it;
    - the verdict strings the methods return are only logged, and are not
      part of the embedding;
    - a Go panic is the [Panic] case of [result]. *)

From Stdlib Require Import ZArith Lia Bool List String.
From stdpp Require Import base option gmap strings fin_maps.

Local Open Scope Z_scope.

(** ** Unsigned machine integers ([constraints.Unsigned]) *)

Class Unsigned : Type := MkUnsigned { bits : positive }.

#[export] Instance uint16 : Unsigned := {| bits := 16 |}.

Definition modulus `{Unsigned} : Z := 2 ^ Z.pos bits.

(** [inT x]: [x] is a value of the unsigned type. *)
Definition inT `{Unsigned} (x : Z) : Prop := 0 <= x < modulus.

Definition wrap `{Unsigned} (x : Z) : Z := x mod modulus.

Definition uadd `{Unsigned} (x y : Z) : Z := wrap (x + y).
Definition usub `{Unsigned} (x y : Z) : Z := wrap (x - y).
Definition umul `{Unsigned} (x y : Z) : Z := wrap (x * y).

(** Modelled from the spec: [util.SaturatingSub] is not among the sources;
    the spec describes it as saturating subtraction. *)
Definition SaturatingSub `{Unsigned} (x y : Z) : Z :=
  if x <? y then 0 else usub x y.

(** Modelled from the spec: [util.Max] is not among the sources; the spec
    writes [pod.Reserved = max(newMax, using)]. *)
Definition Max (x y : Z) : Z := if x <? y then y else x.

(** ** Results of code that may panic *)

Inductive result (A : Type) : Type :=
| Ok (a : A)
| Panic (msg : string).

Arguments Ok {A} a.
Arguments Panic {A} msg.

Definition bind {A B : Type} (m : result A) (k : A -> result B) : result B :=
  match m with
  | Ok a => k a
  | Panic msg => Panic msg
  end.

Notation "'let*' x ':=' m 'in' k" := (bind m (fun x => k))
  (at level 10, x name, m at level 100, k at level 200).

Definition is_panic {A : Type} (m : result A) : bool :=
  match m with
  | Ok _ => false
  | Panic _ => true
  end.

(** Go's run-time panic on an integer division by zero. *)
Definition udiv (x y : Z) : result Z :=
  if y =? 0 then Panic "runtime error: integer divide by zero" else Ok (x / y).

(** ** Ledgers *)

(** Modelled from the spec: the declaration of [nodeResourceState] that
    part_001 is written against (with [Buffer]) is not among the sources;
    the fields are those of the spec's node ledger.  The declaration in
    [state.go] has the same fields in lower case, without [Buffer]. *)
Module Node.
Record nodeResourceState : Type := mk {
  Total : Z;
  System : Z;
  Watermark : Z;
  Reserved : Z;
  Buffer : Z;
  CapacityPressure : Z;
  PressureAccountedFor : Z
}.

Definition set_Reserved (v : Z) (n : nodeResourceState) : nodeResourceState :=
  mk (Total n) (System n) (Watermark n) v (Buffer n)
     (CapacityPressure n) (PressureAccountedFor n).

Definition set_Buffer (v : Z) (n : nodeResourceState) : nodeResourceState :=
  mk (Total n) (System n) (Watermark n) (Reserved n) v
     (CapacityPressure n) (PressureAccountedFor n).

Definition set_CapacityPressure (v : Z) (n : nodeResourceState) : nodeResourceState :=
  mk (Total n) (System n) (Watermark n) (Reserved n) (Buffer n)
     v (PressureAccountedFor n).

Definition set_PressureAccountedFor (v : Z) (n : nodeResourceState) : nodeResourceState :=
  mk (Total n) (System n) (Watermark n) (Reserved n) (Buffer n)
     (CapacityPressure n) v.

(** Every field is a value of the unsigned type. *)
Definition wf `{Unsigned} (n : nodeResourceState) : Prop :=
  inT (Total n) /\ inT (System n) /\ inT (Watermark n) /\ inT (Reserved n) /\
  inT (Buffer n) /\ inT (CapacityPressure n) /\ inT (PressureAccountedFor n).
End Node.

(** Modelled from the spec: the declaration of [podResourceState] that
    part_001 is written against is not among the sources; the fields are
    those of the spec's pod ledger.  The declaration in [state.go] has only
    [reserved] and [capacityPressure]. *)
Module Pod.
Record podResourceState : Type := mk {
  Reserved : Z;
  Buffer : Z;
  CapacityPressure : Z;
  Min : Z;
  Max : Z
}.

Definition set_Reserved (v : Z) (p : podResourceState) : podResourceState :=
  mk v (Buffer p) (CapacityPressure p) (Min p) (Max p).

Definition set_Buffer (v : Z) (p : podResourceState) : podResourceState :=
  mk (Reserved p) v (CapacityPressure p) (Min p) (Max p).

Definition set_CapacityPressure (v : Z) (p : podResourceState) : podResourceState :=
  mk (Reserved p) (Buffer p) v (Min p) (Max p).

Definition set_Min (v : Z) (p : podResourceState) : podResourceState :=
  mk (Reserved p) (Buffer p) (CapacityPressure p) v (Max p).

Definition set_Max (v : Z) (p : podResourceState) : podResourceState :=
  mk (Reserved p) (Buffer p) (CapacityPressure p) (Min p) v.

Definition wf `{Unsigned} (p : podResourceState) : Prop :=
  inT (Reserved p) /\ inT (Buffer p) /\ inT (CapacityPressure p) /\
  inT (Min p) /\ inT (Max p).
End Pod.

Abbreviation nodeResourceState := Node.nodeResourceState.
Abbreviation podResourceState := Pod.podResourceState.

(** ** The resource transitioner (part_001) *)

(** [resourceTransitioner] holds pointers to one node ledger and one pod
    ledger; the embedding carries the two ledgers themselves, and a method
    returns the transitioner with the ledgers as the call leaves them. *)
Record resourceTransitioner : Type := makeResourceTransitioner {
  node : nodeResourceState;
  pod : podResourceState
}.

Definition on_node (f : nodeResourceState -> nodeResourceState)
  (r : resourceTransitioner) : resourceTransitioner :=
  makeResourceTransitioner (f (node r)) (pod r).

Definition on_pod (f : podResourceState -> podResourceState)
  (r : resourceTransitioner) : resourceTransitioner :=
  makeResourceTransitioner (node r) (f (pod r)).

(** The shared tail of [handleLastPermit] and [handleRequested]:
    [if r.pod.Buffer != 0 { r.node.Buffer -= r.pod.Buffer; r.pod.Buffer = 0 }]. *)
Definition clearBuffer `{Unsigned} (r : resourceTransitioner) : resourceTransitioner :=
  if negb (Pod.Buffer (pod r) =? 0) then
    let r := on_node (Node.set_Buffer (usub (Node.Buffer (node r)) (Pod.Buffer (pod r)))) r in
    on_pod (Pod.set_Buffer 0) r
  else r.

Definition handleLastPermit `{Unsigned} (r : resourceTransitioner) (lastPermit : Z)
  : resourceTransitioner :=
  if lastPermit <=? Pod.Reserved (pod r) then
    let r := on_node (Node.set_Reserved
               (usub (Node.Reserved (node r)) (usub (Pod.Reserved (pod r)) lastPermit))) r in
    let r := on_pod (Pod.set_Reserved lastPermit) r in
    clearBuffer r
  else r.

Definition handleRequested `{Unsigned} (r : resourceTransitioner)
  (requested : Z) (startingMigration : bool) (factor : Z)
  : result resourceTransitioner :=
  let oldState := r in
  let totalReservable := Node.Total (node r) in
  let remainingReservable :=
    SaturatingSub totalReservable (Node.Reserved (node oldState)) in
  if requested <=? Pod.Reserved (pod r) then
    let r := on_node (Node.set_Reserved
               (usub (Node.Reserved (node r)) (usub (Pod.Reserved (pod r)) requested))) r in
    let r := on_pod (Pod.set_Reserved requested) r in
    let r := on_pod (Pod.set_CapacityPressure 0) r in
    let r := on_node (Node.set_CapacityPressure
               (usub (Node.CapacityPressure (node r))
                     (Pod.CapacityPressure (pod oldState)))) r in
    Ok (clearBuffer r)
  else if startingMigration then
    let r := on_pod (Pod.set_CapacityPressure
               (usub requested (Pod.Reserved (pod r)))) r in
    let r := on_node (Node.set_CapacityPressure
               (usub (uadd (Node.CapacityPressure (node r)) (Pod.CapacityPressure (pod r)))
                     (Pod.CapacityPressure (pod oldState)))) r in
    if negb (Pod.Buffer (pod r) =? 0) then Panic "r.pod.buffer != 0"
    else Ok r
  else
    let increase := usub requested (Pod.Reserved (pod r)) in
    let* q := udiv remainingReservable factor in
    let maxIncrease := umul q factor in
    let '(r, increase) :=
      if increase >? maxIncrease then
        let r := on_pod (Pod.set_CapacityPressure (usub increase maxIncrease)) r in
        let r := on_node (Node.set_CapacityPressure
                   (uadd (usub (Node.CapacityPressure (node r))
                               (Pod.CapacityPressure (pod oldState)))
                         (Pod.CapacityPressure (pod r)))) r in
        (r, maxIncrease)
      else
        let r := on_node (Node.set_CapacityPressure
                   (usub (Node.CapacityPressure (node r))
                         (Pod.CapacityPressure (pod r)))) r in
        let r := on_pod (Pod.set_CapacityPressure 0) r in
        (r, increase) in
    let r := on_pod (Pod.set_Reserved (uadd (Pod.Reserved (pod r)) increase)) r in
    let r := on_node (Node.set_Reserved (uadd (Node.Reserved (node r)) increase)) r in
    Ok (clearBuffer r).

Definition handleDeleted `{Unsigned} (r : resourceTransitioner)
  (currentlyMigrating : bool) : resourceTransitioner :=
  let r := on_node (Node.set_Reserved
             (usub (Node.Reserved (node r)) (Pod.Reserved (pod r)))) r in
  let r := on_node (Node.set_CapacityPressure
             (usub (Node.CapacityPressure (node r)) (Pod.CapacityPressure (pod r)))) r in
  let r :=
    if currentlyMigrating then
      on_node (Node.set_PressureAccountedFor
        (usub (Node.PressureAccountedFor (node r))
              (uadd (Pod.Reserved (pod r)) (Pod.CapacityPressure (pod r))))) r
    else r in
  if negb (Pod.Buffer (pod r) =? 0) then
    on_node (Node.set_Buffer (usub (Node.Buffer (node r)) (Pod.Buffer (pod r)))) r
  else r.

Definition handleNonAutoscalingUsageChange `{Unsigned} (r : resourceTransitioner)
  (newUsage : Z) : resourceTransitioner :=
  let diff := usub newUsage (Pod.Reserved (pod r)) in
  let r := on_pod (Pod.set_Reserved newUsage) r in
  on_node (Node.set_Reserved (uadd (Node.Reserved (node r)) diff)) r.

(** The loop over [valuesToReduce] in [handleAutoscalingDisabled] and
    [handleStartMigration]: [buffer] is read once, then subtracted from
    [node.Reserved], [node.Buffer], [pod.Reserved] and [pod.Buffer] in turn. *)
Definition reduceByBuffer `{Unsigned} (r : resourceTransitioner) : resourceTransitioner :=
  let buffer := Pod.Buffer (pod r) in
  let r := on_node (Node.set_Reserved (usub (Node.Reserved (node r)) buffer)) r in
  let r := on_node (Node.set_Buffer (usub (Node.Buffer (node r)) buffer)) r in
  let r := on_pod (Pod.set_Reserved (usub (Pod.Reserved (pod r)) buffer)) r in
  on_pod (Pod.set_Buffer (usub (Pod.Buffer (pod r)) buffer)) r.

Definition handleAutoscalingDisabled `{Unsigned} (r : resourceTransitioner)
  : resourceTransitioner :=
  let r := reduceByBuffer r in
  let r := on_node (Node.set_CapacityPressure
             (usub (Node.CapacityPressure (node r)) (Pod.CapacityPressure (pod r)))) r in
  on_pod (Pod.set_CapacityPressure 0) r.

Definition handleStartMigration `{Unsigned} (r : resourceTransitioner) (source : bool)
  : resourceTransitioner :=
  let r := reduceByBuffer r in
  let r := on_node (Node.set_CapacityPressure
             (usub (Node.CapacityPressure (node r)) (Pod.CapacityPressure (pod r)))) r in
  let r := on_pod (Pod.set_CapacityPressure 0) r in
  on_node (Node.set_PressureAccountedFor
    (uadd (Node.PressureAccountedFor (node r)) (Pod.Reserved (pod r)))) r.

(** [handleUpdatedLimits] is a plain function of the two ledgers. *)
Definition handleUpdatedLimits `{Unsigned} (node : nodeResourceState)
  (pod : podResourceState) (receivedContact : bool) (newMin newMax : Z)
  : nodeResourceState * podResourceState :=
  if (newMin =? Pod.Min pod) && (newMax =? Pod.Max pod) then (node, pod)
  else
    let updateBuffer := negb receivedContact && negb (Pod.Max pod =? newMax) in
    let '(node, pod) :=
      if updateBuffer then
        let oldPodBuffer := Pod.Buffer pod in
        let oldPodReserved := Pod.Reserved pod in
        let using' := usub (Pod.Reserved pod) (Pod.Buffer pod) in
        let pod := Pod.set_Reserved (Max newMax using') pod in
        let pod := Pod.set_Buffer (usub (Pod.Reserved pod) using') pod in
        let node := Node.set_Reserved
          (usub (uadd (Node.Reserved node) (Pod.Reserved pod)) oldPodReserved) node in
        let node := Node.set_Buffer
          (usub (uadd (Node.Buffer node) (Pod.Buffer pod)) oldPodBuffer) node in
        (node, pod)
      else (node, pod) in
    let pod := Pod.set_Min newMin pod in
    let pod := Pod.set_Max newMax pod in
    (node, pod).

(** ** Non-VM pods: raw resource sums (state.go) *)

(** [resource.Quantity] (k8s.io/apimachinery) is a fixed-point decimal
    number; the finest scale it keeps is nano.  A quantity is embedded as
    its (signed) number of nano-units. *)
Definition Quantity : Type := Z.

Definition nano : Z := 1000000000.

(** [q.Cmp(y)]: -1, 0 or 1. *)
Definition Quantity_Cmp (q y : Quantity) : Z :=
  if q <? y then -1 else if q =? y then 0 else 1.

Definition Quantity_Add (q y : Quantity) : Quantity := q + y.
Definition Quantity_Sub (q y : Quantity) : Quantity := q - y.

(** [q.Value()]: the value rounded up to the nearest integer away from 0.
    [Value()] returns an [int64]; the embedding gives the integer itself, and
    is [Value()] only for the quantities of [fitsInt64] below, whose rounded
    value is an [int64]. *)
Definition Quantity_Value (q : Quantity) : Z :=
  if 0 <=? q then (q + nano - 1) / nano else - ((- q + nano - 1) / nano).

(** Go's [int64] arithmetic: two's complement wrap-around, and a division
    that truncates towards zero and panics on a zero divisor. *)
Definition wrap64 (x : Z) : Z := (x + 2 ^ 63) mod 2 ^ 64 - 2 ^ 63.

Definition div64 (x y : Z) : result Z :=
  if y =? 0 then Panic "runtime error: integer divide by zero"
  else Ok (wrap64 (Z.quot x y)).

Module PodOther.
Record podOtherResourceState : Type := mk {
  rawCpu : Quantity;
  rawMemory : Quantity
}.
End PodOther.

Module NodeOther.
Record nodeOtherResourceState : Type := mk {
  rawCpu : Quantity;
  rawMemory : Quantity;
  reservedCpu : Z;
  reservedMemSlots : Z
}.
End NodeOther.

Abbreviation podOtherResourceState := PodOther.podOtherResourceState.
Abbreviation nodeOtherResourceState := NodeOther.nodeOtherResourceState.

(** [calculateReserved] writes [reservedCpu] and [reservedMemSlots];
    [uint16(x)] keeps the low 16 bits. *)
Definition calculateReserved (r : nodeOtherResourceState) (memSlotSize : Quantity)
  : result nodeOtherResourceState :=
  let reservedCpu := wrap (H := uint16) (Quantity_Value (NodeOther.rawCpu r)) in
  let memSlotSizeExact := Quantity_Value memSlotSize in
  let* newReservedMemSlots :=
    div64 (wrap64 (wrap64 (Quantity_Value (NodeOther.rawMemory r) + memSlotSizeExact) - 1))
          memSlotSizeExact in
  if newReservedMemSlots >? 2 ^ 16 - 1 then
    Panic "new reserved mem slots overflows uint16"
  else
    Ok (NodeOther.mk (NodeOther.rawCpu r) (NodeOther.rawMemory r)
          reservedCpu (wrap (H := uint16) newReservedMemSlots)).


Definition underflowCpuMsg : string :=
  "underflow: cannot subtract pod CPU from from node CPU".
Definition underflowMemoryMsg : string :=
  "underflow: cannot subtract pod memory from node memory".

Definition subPod (r : nodeOtherResourceState) (memSlotSize : Quantity)
  (p : podOtherResourceState) : result nodeOtherResourceState :=
  if Quantity_Cmp (NodeOther.rawCpu r) (PodOther.rawCpu p) =? -1 then
    Panic underflowCpuMsg
  else if Quantity_Cmp (NodeOther.rawMemory r) (NodeOther.rawMemory r) =? -1 then
    Panic underflowMemoryMsg
  else
    let newState := NodeOther.mk (NodeOther.rawCpu r) (NodeOther.rawMemory r) 0 0 in
    let newState :=
      NodeOther.mk (Quantity_Sub (NodeOther.rawCpu newState) (PodOther.rawCpu p))
                   (NodeOther.rawMemory newState) 0 0 in
    let newState :=
      NodeOther.mk (NodeOther.rawCpu newState)
                   (Quantity_Sub (NodeOther.rawMemory newState) (PodOther.rawMemory p)) 0 0 in
    calculateReserved newState memSlotSize.



(** The claim about [subPod], in the spec's words: subtraction would
    underflow when the pod holds more of either raw resource than the node. *)
Definition wouldUnderflow (r : nodeOtherResourceState) (p : podOtherResourceState) : Prop :=
  PodOther.rawCpu p > NodeOther.rawCpu r \/ PodOther.rawMemory p > NodeOther.rawMemory r.

(** ** Plugin, node and pod state (state.go) *)

(** Modelled from the spec: [api.PodName] is not among the sources; the spec
    calls it the namespaced name of the pod. *)
Definition PodName : Type := (string * string)%type.

(** Go pointers to [podState], [nodeState] and [otherPodState] are locations
    of three stores; [None] is the nil pointer. *)
Definition loc : Type := positive.

Inductive podMigrationState : Type := mkPodMigrationState.

(** [api.Resources], [api.Metrics], [migrationQueue] and [config] are declared
    outside the sources: they are type parameters of the state. *)
Module PodState.
Section Fields.
Context {Resources Metrics : Type}.
Record podState : Type := mk {
  name : PodName;
  vmName : string;
  testingOnlyAlwaysMigrate : bool;
  node : option loc;
  vCPU : podResourceState;
  memSlots : podResourceState;
  mostRecentComputeUnit : option Resources;
  metrics : option Metrics;
  mqIndex : Z;
  migrationState : option podMigrationState
}.

Definition set_mqIndex (v : Z) (p : podState) : podState :=
  mk (name p) (vmName p) (testingOnlyAlwaysMigrate p) (node p) (vCPU p) (memSlots p)
     (mostRecentComputeUnit p) (metrics p) v (migrationState p).

Definition set_migrationState (v : option podMigrationState) (p : podState) : podState :=
  mk (name p) (vmName p) (testingOnlyAlwaysMigrate p) (node p) (vCPU p) (memSlots p)
     (mostRecentComputeUnit p) (metrics p) (mqIndex p) v.
End Fields.
Arguments podState : clear implicits.
End PodState.

Module NodeState.
Section Fields.
Context {Resources migrationQueue : Type}.
Record nodeState : Type := mk {
  name : string;
  vCPU : nodeResourceState;
  memSlots : nodeResourceState;
  computeUnit : option Resources;
  pods : gmap PodName loc;
  otherPods : gmap PodName loc;
  otherResources : nodeOtherResourceState;
  mq : migrationQueue
}.

Definition set_vCPU (v : nodeResourceState) (n : nodeState) : nodeState :=
  mk (name n) v (memSlots n) (computeUnit n) (pods n) (otherPods n)
     (otherResources n) (mq n).

Definition set_mq (v : migrationQueue) (n : nodeState) : nodeState :=
  mk (name n) (vCPU n) (memSlots n) (computeUnit n) (pods n) (otherPods n)
     (otherResources n) v.
End Fields.
Arguments nodeState : clear implicits.
End NodeState.

Module OtherPodState.
Record otherPodState : Type := mk {
  name : PodName;
  node : option loc;
  resources : podOtherResourceState
}.
End OtherPodState.

Module Plugin.
Section Fields.
Context {Resources Metrics migrationQueue config : Type}.

(** [pluginState], without its mutex, together with the three stores its
    pointers lead into. *)
Record pluginState : Type := mk {
  podMap : gmap PodName loc;
  nodeMap : gmap string loc;
  otherPods : gmap PodName loc;
  maxTotalReservableCPU : Z;
  maxTotalReservableMemSlots : Z;
  conf : option config;
  podStore : gmap loc (PodState.podState Resources Metrics);
  nodeStore : gmap loc (NodeState.nodeState Resources migrationQueue);
  otherPodStore : gmap loc OtherPodState.otherPodState
}.

Definition set_podStore (v : gmap loc (PodState.podState Resources Metrics))
  (s : pluginState) : pluginState :=
  mk (podMap s) (nodeMap s) (otherPods s) (maxTotalReservableCPU s)
     (maxTotalReservableMemSlots s) (conf s) v (nodeStore s) (otherPodStore s).

Definition set_nodeStore (v : gmap loc (NodeState.nodeState Resources migrationQueue))
  (s : pluginState) : pluginState :=
  mk (podMap s) (nodeMap s) (otherPods s) (maxTotalReservableCPU s)
     (maxTotalReservableMemSlots s) (conf s) (podStore s) v (otherPodStore s).
End Fields.
Arguments pluginState : clear implicits.
End Plugin.

Definition nilDereference : string :=
  "runtime error: invalid memory address or nil pointer dereference".

(** Reading through a pointer. *)
Definition deref {A : Type} (store : gmap loc A) (p : option loc) : result A :=
  match p with
  | None => Panic nilDereference
  | Some l =>
      match store !! l with
      | Some a => Ok a
      | None => Panic nilDereference
      end
  end.

Section NodeAndPodState.
Context {Resources Metrics migrationQueue config : Type}.

Let podState : Type := PodState.podState Resources Metrics.
Let nodeState : Type := NodeState.nodeState Resources migrationQueue.
Let pluginState : Type := Plugin.pluginState Resources Metrics migrationQueue config.

Definition totalReservableCPU (s : nodeState) : Z :=
  usub (Node.Total (NodeState.vCPU s)) (Node.System (NodeState.vCPU s)).

Definition totalReservableMemSlots (s : nodeState) : Z :=
  usub (Node.Total (NodeState.memSlots s)) (Node.System (NodeState.memSlots s)).

Definition remainingReservableCPU (s : nodeState) : Z :=
  usub (totalReservableCPU s) (Node.Reserved (NodeState.vCPU s)).

Definition remainingReservableMemSlots (s : nodeState) : Z :=
  usub (totalReservableMemSlots s) (Node.Reserved (NodeState.memSlots s)).

Definition tooMuchPressure (s : nodeState) : bool :=
  let vCPU := NodeState.vCPU s in
  let memSlots := NodeState.memSlots s in
  if (Node.Reserved vCPU <=? Node.Watermark vCPU)
     && (Node.Reserved memSlots <? Node.Watermark memSlots) then false
  else
    let logicalCpuPressure := usub (Node.Reserved vCPU) (Node.Watermark vCPU) in
    let logicalMemPressure := usub (Node.Reserved memSlots) (Node.Watermark memSlots) in
    let tooMuchCpu :=
      uadd logicalCpuPressure (Node.CapacityPressure vCPU)
        >? Node.PressureAccountedFor vCPU in
    let tooMuchMem :=
      uadd logicalMemPressure (Node.CapacityPressure memSlots)
        >? Node.PressureAccountedFor memSlots in
    tooMuchCpu || tooMuchMem.

(** The claim about [tooMuchPressure], in the spec's words. *)
Definition tooMuchPressure_spec (s : nodeState) : bool :=
  let vCPU := NodeState.vCPU s in
  let memSlots := NodeState.memSlots s in
  if (Node.Reserved vCPU <=? Node.Watermark vCPU)
     && (Node.Reserved memSlots <=? Node.Watermark memSlots) then false
  else
    (Z.max 0 (Node.Reserved vCPU - Node.Watermark vCPU) + Node.CapacityPressure vCPU
       >? Node.PressureAccountedFor vCPU)
    || (Z.max 0 (Node.Reserved memSlots - Node.Watermark memSlots)
          + Node.CapacityPressure memSlots
        >? Node.PressureAccountedFor memSlots).

Definition currentlyMigrating (s : podState) : bool :=
  match PodState.migrationState s with
  | Some _ => true
  | None => false
  end.

(** [migrationQueue.removeIfPresent] is declared outside the sources.  It is
    a heap operation over the pods of the queue: it returns the queue without
    the pod and the [mqIndex] values it writes, by pod. *)
Variable removeIfPresent :
  migrationQueue -> gmap loc podState -> loc -> migrationQueue * gmap loc Z.

Definition writeIndices (written : gmap loc Z) (store : gmap loc podState)
  : gmap loc podState :=
  map_imap (fun l p =>
    Some (match written !! l with
          | Some i => PodState.set_mqIndex i p
          | None => p
          end)) store.

Definition alreadyMigrating : string := "Pod is already migrating".
Definition migrationUnimplemented : string := "VM migration is currently unimplemented".

(** [startMigration] returns the state it leaves and its [error]
    ([None] for a nil error). *)
Definition startMigration (s : pluginState) (pod : option loc)
  : result (pluginState * option string) :=
  let* p := deref (Plugin.podStore s) pod in
  if currentlyMigrating p then Ok (s, Some alreadyMigrating)
  else
    let* n := deref (Plugin.nodeStore s) (PodState.node p) in
    match pod, PodState.node p with
    | Some lp, Some ln =>
        let '(q, written) := removeIfPresent (NodeState.mq n) (Plugin.podStore s) lp in
        let s := Plugin.set_nodeStore
                   (<[ln := NodeState.set_mq q n]> (Plugin.nodeStore s)) s in
        let s := Plugin.set_podStore (writeIndices written (Plugin.podStore s)) s in
        let* p := deref (Plugin.podStore s) pod in
        let s := Plugin.set_podStore
                   (<[lp := PodState.set_migrationState (Some mkPodMigrationState) p]>
                      (Plugin.podStore s)) s in
        let* p := deref (Plugin.podStore s) pod in
        let* n := deref (Plugin.nodeStore s) (PodState.node p) in
        let vCPU := NodeState.vCPU n in
        let vCPU := Node.set_PressureAccountedFor
          (uadd (Node.PressureAccountedFor vCPU)
                (uadd (Pod.Reserved (PodState.vCPU p))
                      (Pod.CapacityPressure (PodState.vCPU p)))) vCPU in
        let s := Plugin.set_nodeStore
                   (<[ln := NodeState.set_vCPU vCPU n]> (Plugin.nodeStore s)) s in
        Ok (s, Some migrationUnimplemented)
    | _, _ => Panic nilDereference
    end.

End NodeAndPodState.

(** ** Events on one node ledger and the ledgers of its pods *)

(** One resource of one node: the node's ledger and, by pod name, the
    ledgers of the VM pods placed on it. *)
Record ledgers : Type := mkLedgers {
  nodeLedger : nodeResourceState;
  podLedgers : gmap PodName podResourceState
}.

(** Modelled from the spec: VM placement is not among the sources.  The spec
    has the node's [Reserved], [Buffer] and [CapacityPressure] equal the sums
    over its pods after every event, and placement followed by deletion
    restore the node: placement adds the pod's three amounts to the node. *)
Definition placePod `{Unsigned} (n : nodeResourceState) (p : podResourceState)
  : nodeResourceState :=
  let n := Node.set_Reserved (uadd (Node.Reserved n) (Pod.Reserved p)) n in
  let n := Node.set_Buffer (uadd (Node.Buffer n) (Pod.Buffer p)) n in
  Node.set_CapacityPressure (uadd (Node.CapacityPressure n) (Pod.CapacityPressure p)) n.

Inductive event : Type :=
| Placement (name : PodName) (p : podResourceState)
| LastPermit (name : PodName) (lastPermit : Z)
| Requested (name : PodName) (requested : Z) (startingMigration : bool) (factor : Z)
| Deleted (name : PodName) (currentlyMigrating : bool)
| NonAutoscalingUsageChange (name : PodName) (newUsage : Z)
| AutoscalingDisabled (name : PodName)
| StartMigration (name : PodName) (source : bool)
| UpdatedLimits (name : PodName) (receivedContact : bool) (newMin newMax : Z).

(** A transition on the pod called [name]; as in [handleVMDeletion], a pod
    that is not in the map leaves the state as it is. *)
Definition withPod (s : ledgers) (name : PodName)
  (f : resourceTransitioner -> result resourceTransitioner) : result ledgers :=
  match podLedgers s !! name with
  | None => Ok s
  | Some p =>
      let* r := f (makeResourceTransitioner (nodeLedger s) p) in
      Ok (mkLedgers (node r) (<[name := pod r]> (podLedgers s)))
  end.

Definition step `{Unsigned} (s : ledgers) (ev : event) : result ledgers :=
  match ev with
  | Placement name p =>
      match podLedgers s !! name with
      | Some _ => Ok s
      | None => Ok (mkLedgers (placePod (nodeLedger s) p) (<[name := p]> (podLedgers s)))
      end
  | LastPermit name lastPermit =>
      withPod s name (fun r => Ok (handleLastPermit r lastPermit))
  | Requested name requested startingMigration factor =>
      withPod s name (fun r => handleRequested r requested startingMigration factor)
  | Deleted name currentlyMigrating =>
      match podLedgers s !! name with
      | None => Ok s
      | Some p =>
          let r := handleDeleted (makeResourceTransitioner (nodeLedger s) p)
                     currentlyMigrating in
          Ok (mkLedgers (node r) (delete name (podLedgers s)))
      end
  | NonAutoscalingUsageChange name newUsage =>
      withPod s name (fun r => Ok (handleNonAutoscalingUsageChange r newUsage))
  | AutoscalingDisabled name =>
      withPod s name (fun r => Ok (handleAutoscalingDisabled r))
  | StartMigration name source =>
      withPod s name (fun r => Ok (handleStartMigration r source))
  | UpdatedLimits name receivedContact newMin newMax =>
      withPod s name (fun r =>
        let '(n, p) := handleUpdatedLimits (node r) (pod r) receivedContact newMin newMax in
        Ok (makeResourceTransitioner n p))
  end.

(** The states after each event of a sequence, in order; a panic ends the
    process, and the sequence with it. *)
Fixpoint trace `{Unsigned} (s : ledgers) (evs : list event) : list ledgers :=
  match evs with
  | [] => []
  | ev :: evs =>
      match step s ev with
      | Ok s' => s' :: trace s' evs
      | Panic _ => []
      end
  end.

(** A node as hydration leaves it: nothing reserved, no pods. *)
Definition hydrated (total system watermark : Z) : ledgers :=
  mkLedgers (Node.mk total system watermark 0 0 0 0) ∅.






(** ** Predicates and example states of the statements *)

(** The ledgers the claim about idempotent notifications expects: nothing
    changes but the two capacity pressures. *)
Definition onlyPressureCleared `{Unsigned} (r : resourceTransitioner) : resourceTransitioner :=
  makeResourceTransitioner
    (Node.set_CapacityPressure
       (usub (Node.CapacityPressure (node r)) (Pod.CapacityPressure (pod r))) (node r))
    (Pod.set_CapacityPressure 0 (pod r)).

(** [delta] is a non-negative multiple of [factor]. *)
Definition quantised (factor delta : Z) : Prop :=
  exists k : Z, 0 <= k /\ delta = k * factor.

(** The bound of the increase path: what is left in the node, rounded down
    to a multiple of [factor]. *)
Definition maxIncreaseOf `{Unsigned} (r : resourceTransitioner) (factor : Z) : Z :=
  SaturatingSub (Node.Total (node r)) (Node.Reserved (node r)) / factor * factor.

(** A node whose CPU is below its watermark and whose memory is exactly at
    its watermark. *)
Definition nodeAtWatermark : NodeState.nodeState unit unit :=
  NodeState.mk "node-1" (Node.mk 8 1 6 5 0 0 0) (Node.mk 8 1 6 6 0 0 0)
    None ∅ ∅ (NodeOther.mk 0 0 0 0) tt.

(** A plugin with one node and one VM pod on it; the queue is a single
    token, and removing a pod from it writes no index. *)
Definition pod1 (migrationState : option podMigrationState)
  : PodState.podState unit unit :=
  PodState.mk ("default", "vm-1") "vm-1" false (Some 1%positive)
    (Pod.mk 3 0 0 1 4) (Pod.mk 2 0 0 1 4) None None (-1) migrationState.

Definition node1 : NodeState.nodeState unit unit :=
  NodeState.mk "node-1" (Node.mk 8 1 6 3 0 0 0) (Node.mk 8 1 6 2 0 0 0)
    None {[ ("default", "vm-1") := 1%positive ]} ∅ (NodeOther.mk 0 0 0 0) tt.

Definition plugin1 (migrationState : option podMigrationState)
  : Plugin.pluginState unit unit unit unit :=
  Plugin.mk {[ ("default", "vm-1") := 1%positive ]} {[ "node-1" := 1%positive ]} ∅
    7 7 (Some tt) {[ 1%positive := pod1 migrationState ]} {[ 1%positive := node1 ]} ∅.

Definition removeNothing (q : unit) (store : gmap loc (PodState.podState unit unit))
  (l : loc) : unit * gmap loc Z := (q, ∅).

Definition podA : PodName := ("default", "vm-a").
Definition podB : PodName := ("default", "vm-b").





(** Scenario S2 as a sequence of events: two pods of 3 units are placed on a
    node with [Total = 8], the first asks for 6, the second is deleted. *)
Definition S2_events : list event :=
  [ Placement podA (Pod.mk 3 0 0 1 8);
    Placement podB (Pod.mk 3 0 0 1 8);
    Requested podA 6 false 1;
    Deleted podB false ].

(** A life of two pods on a node with [Total = 8] that goes through every
    kind of event: limit updates with and without contact, one raising the
    reservation into free room and one lowering it, and a change of usage. *)
Definition mixed_events : list event :=
  [ Placement podA (Pod.mk 4 1 0 1 4);
    UpdatedLimits podA true 1 10;
    UpdatedLimits podA false 1 6;
    Placement podB (Pod.mk 2 0 0 2 2);
    UpdatedLimits podA false 1 2;
    NonAutoscalingUsageChange podB 3;
    LastPermit podA 3;
    Requested podA 6 false 1;
    AutoscalingDisabled podA;
    StartMigration podB true;
    Deleted podB true;
    Deleted podA false ].

(** ** Deleting a VM pod (state.go) *)

Section Deletion.
Context {Resources Metrics migrationQueue config : Type}.

Variable removeIfPresent :
  migrationQueue -> gmap loc (PodState.podState Resources Metrics) -> loc
  -> migrationQueue * gmap loc Z.

(** Modelled from the spec: [collectResourceTransition] is not among the
    sources; the spec has a transitioner constructed for one node slot and
    one pod slot, which [makeResourceTransitioner] of part_001 does. *)
Definition collectResourceTransition (n : nodeResourceState) (p : podResourceState)
  : resourceTransitioner :=
  makeResourceTransitioner n p.

(** [handleVMDeletion], without its log lines.  [handleDeleted] writes
    through [r.node] only, so only the node is stored back. *)
Definition handleVMDeletion
  (s : Plugin.pluginState Resources Metrics migrationQueue config) (podName : PodName)
  : result (Plugin.pluginState Resources Metrics migrationQueue config) :=
  match Plugin.podMap s !! podName with
  | None => Ok s
  | Some lp =>
      let* p := deref (Plugin.podStore s) (Some lp) in
      let migrating := currentlyMigrating p in
      let* n := deref (Plugin.nodeStore s) (PodState.node p) in
      match PodState.node p with
      | None => Panic nilDereference
      | Some ln =>
          let vCPU :=
            node
              (handleDeleted (collectResourceTransition (NodeState.vCPU n) (PodState.vCPU p))
                 migrating) in
          let memSlots :=
            node
              (handleDeleted
                 (collectResourceTransition (NodeState.memSlots n) (PodState.memSlots p))
                 migrating) in
          let podMap := delete podName (Plugin.podMap s) in
          let pods := delete podName (NodeState.pods n) in
          let '(q, written) := removeIfPresent (NodeState.mq n) (Plugin.podStore s) lp in
          let n := NodeState.mk (NodeState.name n) vCPU memSlots (NodeState.computeUnit n)
                     pods (NodeState.otherPods n) (NodeState.otherResources n) q in
          Ok (Plugin.mk podMap (Plugin.nodeMap s) (Plugin.otherPods s)
                (Plugin.maxTotalReservableCPU s) (Plugin.maxTotalReservableMemSlots s)
                (Plugin.conf s)
                (writeIndices written (Plugin.podStore s))
                (<[ln := n]> (Plugin.nodeStore s))
                (Plugin.otherPodStore s))
      end
  end.

End Deletion.

(** ** Resources of a non-VM pod (state.go) *)

(** [corev1.ResourceList] is a map from resource names to quantities;
    [Cpu()] and [Memory()] return the entry, or the zero quantity when there
    is none. *)
Definition ResourceList : Type := gmap string Quantity.

Definition ResourceList_Cpu (l : ResourceList) : Quantity := default 0 (l !! "cpu").
Definition ResourceList_Memory (l : ResourceList) : Quantity := default 0 (l !! "memory").

Definition Quantity_IsZero (q : Quantity) : bool := q =? 0.
Definition Quantity_Equal (q y : Quantity) : bool := Quantity_Cmp q y =? 0.

(** The fields of [corev1.Container] that [extractPodOtherPodResourceState]
    reads: [Name], [Resources.Requests] and [Resources.Limits]. *)
Record Container : Type := mkContainer {
  Name : string;
  Requests : ResourceList;
  Limits : ResourceList
}.

Inductive resourceKind : Type := cpuResource | memoryResource.

(** The four errors of [extractPodOtherPodResourceState], with the index and
    the name of the container that the message carries. *)
Inductive extractError : Type :=
| MissingLimit (i : nat) (name : string) (kind : resourceKind)
| RequestNotLimit (i : nat) (name : string) (kind : resourceKind).

(** The loop over [pod.Spec.Containers], from index [i] with the sums so
    far; an error returns the zero state, as the source does. *)
Fixpoint extractContainers (i : nat) (containers : list Container) (cpu mem : Quantity)
  : podOtherResourceState * option extractError :=
  match containers with
  | [] => (PodOther.mk cpu mem, None)
  | container :: rest =>
      let cpuRequest := ResourceList_Cpu (Requests container) in
      let cpuLimit := ResourceList_Cpu (Limits container) in
      if Quantity_IsZero cpuLimit then
        (PodOther.mk 0 0, Some (MissingLimit i (Name container) cpuResource))
      else if negb (Quantity_IsZero cpuRequest) && negb (Quantity_Equal cpuLimit cpuRequest) then
        (PodOther.mk 0 0, Some (RequestNotLimit i (Name container) cpuResource))
      else
        let cpu := Quantity_Add cpu cpuLimit in
        let memRequest := ResourceList_Memory (Requests container) in
        let memLimit := ResourceList_Memory (Limits container) in
        if Quantity_IsZero memLimit then
          (PodOther.mk 0 0, Some (MissingLimit i (Name container) memoryResource))
        else if negb (Quantity_IsZero memRequest) && negb (Quantity_Equal memLimit memRequest) then
          (PodOther.mk 0 0, Some (RequestNotLimit i (Name container) memoryResource))
        else
          let mem := Quantity_Add mem memLimit in
          extractContainers (S i) rest cpu mem
  end.

(** [pod] is given by its [Spec.Containers]. *)
Definition extractPodOtherPodResourceState (containers : list Container)
  : podOtherResourceState * option extractError :=
  extractContainers 0 containers 0 0.

(** ** Predicates of the further properties *)

(** What the other pods of the node hold of each amount: the node's amount
    less the pod's, in the unsigned type. *)
Definition othersShare `{Unsigned} (r : resourceTransitioner) : Z * Z * Z :=
  (usub (Node.Reserved (node r)) (Pod.Reserved (pod r)),
   usub (Node.Buffer (node r)) (Pod.Buffer (pod r)),
   usub (Node.CapacityPressure (node r)) (Pod.CapacityPressure (pod r))).

(** A container that [extractPodOtherPodResourceState] accepts: both limits
    are set, and a request that is set equals its limit. *)
Definition acceptedContainer (c : Container) : Prop :=
  ResourceList_Cpu (Limits c) <> 0
  /\ (ResourceList_Cpu (Requests c) = 0
      \/ ResourceList_Cpu (Requests c) = ResourceList_Cpu (Limits c))
  /\ ResourceList_Memory (Limits c) <> 0
  /\ (ResourceList_Memory (Requests c) = 0
      \/ ResourceList_Memory (Requests c) = ResourceList_Memory (Limits c)).

(** The error the loop reports for a container that it does not accept. *)
Definition containerError (i : nat) (c : Container) : option extractError :=
  if Quantity_IsZero (ResourceList_Cpu (Limits c)) then
    Some (MissingLimit i (Name c) cpuResource)
  else if negb (Quantity_IsZero (ResourceList_Cpu (Requests c)))
          && negb (Quantity_Equal (ResourceList_Cpu (Limits c)) (ResourceList_Cpu (Requests c)))
  then Some (RequestNotLimit i (Name c) cpuResource)
  else if Quantity_IsZero (ResourceList_Memory (Limits c)) then
    Some (MissingLimit i (Name c) memoryResource)
  else if negb (Quantity_IsZero (ResourceList_Memory (Requests c)))
          && negb (Quantity_Equal (ResourceList_Memory (Limits c))
                     (ResourceList_Memory (Requests c)))
  then Some (RequestNotLimit i (Name c) memoryResource)
  else None.

(** The sums of the containers' limits. *)
Definition sumCpuLimits (containers : list Container) : Quantity :=
  foldr (fun c acc => ResourceList_Cpu (Limits c) + acc) 0 containers.
Definition sumMemoryLimits (containers : list Container) : Quantity :=
  foldr (fun c acc => ResourceList_Memory (Limits c) + acc) 0 containers.

(** The pod as a queue operation leaves it: only [mqIndex] may be written. *)
Definition reindexed {Resources Metrics : Type} (written : gmap loc Z) (l : loc)
  (p : PodState.podState Resources Metrics) : PodState.podState Resources Metrics :=
  match written !! l with
  | Some i => PodState.set_mqIndex i p
  | None => p
  end.

(** * Properties *)

(** ** Arithmetic of the unsigned type *)

Section UnsignedFacts.
Context `{U : Unsigned}.

Lemma modulus_pos : 0 < modulus.
Proof. unfold modulus. apply Z.pow_pos_nonneg; lia. Qed.

Lemma wrap_small (x : Z) : inT x -> wrap x = x.
Proof. intros Hx. apply Z.mod_small. exact Hx. Qed.

Lemma wrap_inT (x : Z) : inT (wrap x).
Proof. apply Z.mod_pos_bound, modulus_pos. Qed.

Lemma uadd_small (x y : Z) : 0 <= x + y < modulus -> uadd x y = x + y.
Proof. intros Hxy. apply Z.mod_small. exact Hxy. Qed.

Lemma usub_small (x y : Z) : 0 <= x - y < modulus -> usub x y = x - y.
Proof. intros Hxy. apply Z.mod_small. exact Hxy. Qed.

Lemma usub_0_r (x : Z) : inT x -> usub x 0 = x.
Proof. intros Hx. unfold usub. rewrite Z.sub_0_r. now apply wrap_small. Qed.

Lemma usub_diag (x : Z) : usub x x = 0.
Proof. unfold usub, wrap. rewrite Z.sub_diag. apply Z.mod_0_l. pose proof modulus_pos. lia. Qed.

Lemma SaturatingSub_spec (x y : Z) :
  inT x -> inT y -> SaturatingSub x y = Z.max 0 (x - y).
Proof.
  intros Hx Hy. unfold SaturatingSub, inT in *.
  destruct (Z.ltb_spec x y); [lia|].
  rewrite usub_small by lia. lia.
Qed.

(** Rounding down to a multiple of [factor] stays within the amount. *)
Lemma floor_multiple (x factor : Z) :
  0 <= x -> 0 < factor -> 0 <= x / factor * factor <= x.
Proof.
  intros Hx Hf. pose proof (Z.mul_div_le x factor Hf).
  pose proof (Z.div_pos x factor Hx Hf). nia.
Qed.

End UnsignedFacts.

(** Moves every inner reduction modulo [modulus] to the outside. *)
Ltac push_wrap :=
  unfold uadd, usub, wrap;
  try rewrite_strat (bottomup (repeat (choice (choice Zminus_mod_idemp_l Zminus_mod_idemp_r)
                                              (choice Zplus_mod_idemp_l Zplus_mod_idemp_r)))).

(** Closes [(e mod modulus) = a] once [e] and [a] are equal as integers. *)
Ltac wrap_back :=
  match goal with
  | |- ?e mod modulus = ?a =>
      replace e with a by ring; apply Z.mod_small; assumption
  end.

(** Unfolds the field updates and projections of the ledgers. *)
Ltac ledger_simpl :=
  cbv beta iota delta
    [node pod on_node on_pod
     Node.set_Reserved Node.set_Buffer Node.set_CapacityPressure
     Node.set_PressureAccountedFor
     Node.Total Node.System Node.Watermark Node.Reserved Node.Buffer
     Node.CapacityPressure Node.PressureAccountedFor
     Pod.set_Reserved Pod.set_Buffer Pod.set_CapacityPressure Pod.set_Min Pod.set_Max
     Pod.Reserved Pod.Buffer Pod.CapacityPressure Pod.Min Pod.Max].

Ltac inT_concrete := unfold Node.wf, Pod.wf, inT, modulus; simpl; lia.

(** ** Permit replay *)

Lemma clearBuffer_pod `{Unsigned} (r : resourceTransitioner) :
  pod (clearBuffer r) = Pod.set_Buffer 0 (pod r).
Proof.
  unfold clearBuffer. destruct (Z.eqb_spec (Pod.Buffer (pod r)) 0) as [E|E]; simpl.
  - destruct r as [n [? b ? ? ?]]; simpl in *. now subst.
  - reflexivity.
Qed.

Lemma clearBuffer_node `{Unsigned} (r : resourceTransitioner) :
  inT (Node.Buffer (node r)) ->
  node (clearBuffer r)
  = Node.set_Buffer (usub (Node.Buffer (node r)) (Pod.Buffer (pod r))) (node r).
Proof.
  intros Hb. unfold clearBuffer.
  destruct (Z.eqb_spec (Pod.Buffer (pod r)) 0) as [E|E]; simpl.
  - rewrite E, usub_0_r by assumption. now destruct r as [[] ?].
  - reflexivity.
Qed.

(** C6. [handleLastPermit(lastPermit)]: when [lastPermit <= pod.Reserved],
    afterwards [pod.Reserved = lastPermit], [node.Reserved] is reduced by
    [pod.Reserved - lastPermit], [pod.Buffer = 0] and [node.Buffer] is reduced
    by the pod's prior [Buffer], every other field being as before; when
    [lastPermit > pod.Reserved] no field of either ledger changes.  The
    reductions are those of the unsigned type, and are the integer
    differences when the node holds at least what the pod does. *)
Theorem handleLastPermit_effect `{Unsigned} (r : resourceTransitioner) (lastPermit : Z) :
  Node.wf (node r) -> Pod.wf (pod r) -> inT lastPermit ->
  (lastPermit <= Pod.Reserved (pod r) ->
     pod (handleLastPermit r lastPermit)
       = Pod.mk lastPermit 0 (Pod.CapacityPressure (pod r)) (Pod.Min (pod r)) (Pod.Max (pod r))
     /\ node (handleLastPermit r lastPermit)
       = Node.mk (Node.Total (node r)) (Node.System (node r)) (Node.Watermark (node r))
           (usub (Node.Reserved (node r)) (Pod.Reserved (pod r) - lastPermit))
           (usub (Node.Buffer (node r)) (Pod.Buffer (pod r)))
           (Node.CapacityPressure (node r)) (Node.PressureAccountedFor (node r))
     /\ (Pod.Reserved (pod r) <= Node.Reserved (node r) ->
           Node.Reserved (node (handleLastPermit r lastPermit))
           = Node.Reserved (node r) - (Pod.Reserved (pod r) - lastPermit))
     /\ (Pod.Buffer (pod r) <= Node.Buffer (node r) ->
           Node.Buffer (node (handleLastPermit r lastPermit))
           = Node.Buffer (node r) - Pod.Buffer (pod r)))
  /\ (lastPermit > Pod.Reserved (pod r) -> handleLastPermit r lastPermit = r).
Proof.
  intros Hn Hp Hl.
  destruct Hn as (HT & HS & HW & HR & HB & HC & HA).
  destruct Hp as (HpR & HpB & HpC & HpMin & HpMax).
  unfold handleLastPermit. split.
  - intros Hle. apply Z.leb_le in Hle as Hle'. rewrite Hle'.
    assert (Hd : usub (Pod.Reserved (pod r)) lastPermit = Pod.Reserved (pod r) - lastPermit).
    { apply usub_small. unfold inT in *. lia. }
    rewrite clearBuffer_pod, clearBuffer_node by exact HB.
    rewrite Hd. simpl.
    repeat split.
    + intros Hge. apply usub_small. unfold inT in *. lia.
    + intros Hge. apply usub_small. unfold inT in *. lia.
  - intros Hgt. destruct (Z.leb_spec lastPermit (Pod.Reserved (pod r))); [lia | reflexivity].
Qed.

(** Scenario S5: from [pod.Reserved = 5], [pod.Buffer = 2], a last permit of
    3 leaves [pod.Reserved = 3], [pod.Buffer = 0], and the node's [Reserved]
    and [Buffer] two lower. *)
Lemma handleLastPermit_effect_witness :
  let r := makeResourceTransitioner (Node.mk 8 1 6 5 2 0 0) (Pod.mk 5 2 0 1 5) in
  (Node.wf (node r) /\ Pod.wf (pod r) /\ inT 3 /\ 3 <= Pod.Reserved (pod r)) /\
  pod (handleLastPermit r 3) = Pod.mk 3 0 0 1 5 /\
  node (handleLastPermit r 3) = Node.mk 8 1 6 3 0 0 0.
Proof.
  intros r.
  assert (Hn : Node.wf (node r)) by (subst r; inT_concrete).
  assert (Hp : Pod.wf (pod r)) by (subst r; inT_concrete).
  assert (Hl : inT 3) by inT_concrete.
  assert (Hle : 3 <= Pod.Reserved (pod r)) by (subst r; simpl; lia).
  split; [tauto|].
  destruct (handleLastPermit_effect r 3 Hn Hp Hl) as [Hdown _].
  destruct (Hdown Hle) as (Hpod & Hnode & _).
  split; [exact Hpod | exact Hnode].
Defined.

(** ** Agent requests *)

(** Scenario S2 on the code: two units remain below [Total], and both are
    granted. *)
Example S2_run :
  handleRequested
    (makeResourceTransitioner (Node.mk 8 1 6 6 0 0 0) (Pod.mk 3 0 0 1 8)) 6 false 1
  = Ok (makeResourceTransitioner (Node.mk 8 1 6 8 0 1 0) (Pod.mk 5 0 1 1 8)).
Proof. reflexivity. Qed.

(** Scenario S3 on the code: with [factor = 4] the two units that remain
    round down to no increase at all. *)
Example S3_run :
  handleRequested
    (makeResourceTransitioner (Node.mk 8 1 6 6 0 0 0) (Pod.mk 3 0 0 1 8)) 6 false 4
  = Ok (makeResourceTransitioner (Node.mk 8 1 6 6 0 3 0) (Pod.mk 3 0 3 1 8)).
Proof. reflexivity. Qed.

(** C2, as the claim states it, fails: with [Total = 8], [System = 1],
    [node.Reserved = 6] and a pod at [Reserved = 3], a request for 6 does not
    end at [pod.Reserved = 4], [node.Reserved = 7] and pressures of 2. *)
Lemma handleRequested_S2_counterexample :
  ~ exists r',
      handleRequested
        (makeResourceTransitioner (Node.mk 8 1 6 6 0 0 0) (Pod.mk 3 0 0 1 8)) 6 false 1
      = Ok r'
      /\ Pod.Reserved (pod r') = 4 /\ Node.Reserved (node r') = 7
      /\ Pod.CapacityPressure (pod r') = 2 /\ Node.CapacityPressure (node r') = 2.
Proof.
  intros (r' & Hrun & Hp & _). rewrite S2_run in Hrun.
  injection Hrun as <-. simpl in Hp. discriminate.
Qed.

(** C2, amended.  From a node ledger with [Total = 8], [System = 1],
    [Reserved = 6] and no capacity pressure, and a pod with [Reserved = 3]
    and [CapacityPressure = 0], [handleRequested(6, false, 1)] yields
    [pod.Reserved = 5], [node.Reserved = 8], [pod.CapacityPressure = 1] and
    [node.CapacityPressure = 1]: the increase is capped by
    [Total - node.Reserved = 8 - 6 = 2], and [System] is not subtracted. *)
Theorem handleRequested_S2 (watermark nodeBuffer accountedFor podBuffer podMin podMax : Z) :
  exists r',
    handleRequested
      (makeResourceTransitioner (Node.mk 8 1 watermark 6 nodeBuffer 0 accountedFor)
                                (Pod.mk 3 podBuffer 0 podMin podMax)) 6 false 1
    = Ok r'
    /\ Pod.Reserved (pod r') = 5 /\ Node.Reserved (node r') = 8
    /\ Pod.CapacityPressure (pod r') = 1 /\ Node.CapacityPressure (node r') = 1.
Proof.
  unfold handleRequested. cbn -[clearBuffer].
  eexists. split; [reflexivity|].
  unfold clearBuffer. cbn. destruct (podBuffer =? 0); cbn; repeat split.
Qed.

(** C4, as the claim states it, fails: a request equal to [pod.Reserved]
    from a pod that still holds a buffer also clears that buffer, on the pod
    and on the node. *)
Lemma handleRequested_same_counterexample :
  let r := makeResourceTransitioner (Node.mk 8 1 6 5 2 1 0) (Pod.mk 5 2 1 1 5) in
  handleRequested r (Pod.Reserved (pod r)) false 1
    = Ok (makeResourceTransitioner (Node.mk 8 1 6 5 0 0 0) (Pod.mk 5 0 0 1 5))
  /\ handleRequested r (Pod.Reserved (pod r)) false 1 <> Ok (onlyPressureCleared r).
Proof.
  intros r. split; [reflexivity|]. intros Heq. discriminate Heq.
Qed.

(** C4, amended.  [handleRequested] with [requested = pod.Reserved] and
    [startingMigration = false] leaves every ledger field of the pod and of
    the node unchanged, except that [pod.CapacityPressure] is cleared and
    [node.CapacityPressure] reduced by its prior value, and that
    [pod.Buffer] is cleared and [node.Buffer] reduced by its prior value.
    The reductions are the integer differences when the node holds at least
    what the pod does. *)
Theorem handleRequested_same `{Unsigned} (r : resourceTransitioner) (factor : Z) :
  Node.wf (node r) ->
  exists r',
    handleRequested r (Pod.Reserved (pod r)) false factor = Ok r'
    /\ pod r' = Pod.mk (Pod.Reserved (pod r)) 0 0 (Pod.Min (pod r)) (Pod.Max (pod r))
    /\ node r'
       = Node.mk (Node.Total (node r)) (Node.System (node r)) (Node.Watermark (node r))
           (Node.Reserved (node r))
           (usub (Node.Buffer (node r)) (Pod.Buffer (pod r)))
           (usub (Node.CapacityPressure (node r)) (Pod.CapacityPressure (pod r)))
           (Node.PressureAccountedFor (node r))
    /\ (0 <= Pod.Buffer (pod r) <= Node.Buffer (node r) ->
          Node.Buffer (node r') = Node.Buffer (node r) - Pod.Buffer (pod r))
    /\ (0 <= Pod.CapacityPressure (pod r) <= Node.CapacityPressure (node r) ->
          Node.CapacityPressure (node r')
          = Node.CapacityPressure (node r) - Pod.CapacityPressure (pod r)).
Proof.
  intros (HT & HS & HW & HR & HB & HC & HA).
  unfold handleRequested. rewrite Z.leb_refl.
  eexists. split; [reflexivity|].
  rewrite clearBuffer_pod, clearBuffer_node by exact HB. simpl.
  rewrite usub_diag, usub_0_r by exact HR.
  repeat split.
  - intros Hb. apply usub_small. unfold inT in *. lia.
  - intros Hc. apply usub_small. unfold inT in *. lia.
Qed.

Lemma handleRequested_same_witness :
  let r := makeResourceTransitioner (Node.mk 8 1 6 5 2 1 0) (Pod.mk 5 2 1 1 5) in
  Node.wf (node r) /\
  exists r',
    handleRequested r 5 false 1 = Ok r'
    /\ pod r' = Pod.mk 5 0 0 1 5 /\ node r' = Node.mk 8 1 6 5 0 0 0.
Proof.
  intros r.
  assert (Hn : Node.wf (node r)) by (subst r; inT_concrete).
  split; [exact Hn|].
  destruct (handleRequested_same r 1 Hn) as (r' & Hrun & Hpod & Hnode & _).
  exists r'. split; [exact Hrun|]. split; [exact Hpod | exact Hnode].
Defined.

(** C3 on the code: every [pod.Reserved] delta of the increase path is to be
    a non-negative multiple of [factor], as the docstring of
    [handleRequested] also has it ("Any permitted increases are required to
    be a multiple of factor").  A pod at 3 that asks for 4, a multiple of
    [factor = 2], on a node with room for 7 is granted the increase of 1:
    only the cap is rounded down to a multiple of [factor]. *)
Theorem handleRequested_grants_unaligned :
  let r := makeResourceTransitioner (Node.mk 10 0 8 3 0 0 0) (Pod.mk 3 0 0 1 8) in
  quantised 2 4
  /\ handleRequested r 4 false 2
     = Ok (makeResourceTransitioner (Node.mk 10 0 8 4 0 0 0) (Pod.mk 4 0 0 1 8))
  /\ exists r',
       handleRequested r 4 false 2 = Ok r'
       /\ Pod.Reserved (pod r') - Pod.Reserved (pod r) = 1
       /\ ~ quantised 2 (Pod.Reserved (pod r') - Pod.Reserved (pod r)).
Proof.
  intros r. split; [exists 2; lia|]. split; [reflexivity|].
  eexists. split; [reflexivity|]. split; [reflexivity|].
  intros (k & Hk & Hmul). change (1 = k * 2) in Hmul. lia.
Qed.

(** The increase path of [handleRequested], with its arithmetic free of
    wrap-around. *)
Lemma handleRequested_increase `{Unsigned} (r : resourceTransitioner)
  (requested factor : Z) :
  inT (Node.Total (node r)) -> inT (Node.Reserved (node r)) ->
  inT (Pod.Reserved (pod r)) -> inT requested -> inT factor -> 0 < factor ->
  Pod.Reserved (pod r) < requested ->
  exists r',
    handleRequested r requested false factor = Ok r'
    /\ Pod.Reserved (pod r')
       = Pod.Reserved (pod r) + Z.min (requested - Pod.Reserved (pod r)) (maxIncreaseOf r factor)
    /\ Node.Reserved (node r')
       = uadd (Node.Reserved (node r))
              (Z.min (requested - Pod.Reserved (pod r)) (maxIncreaseOf r factor))
    /\ Node.Total (node r') = Node.Total (node r)
    /\ Pod.Buffer (pod r') = 0.
Proof.
  intros HT HR HpR Hreq Hf Hpos Hlt.
  unfold handleRequested, maxIncreaseOf.
  destruct (Z.leb_spec requested (Pod.Reserved (pod r))) as [?|_]; [lia|].
  rewrite SaturatingSub_spec by assumption.
  set (remaining := Z.max 0 (Node.Total (node r) - Node.Reserved (node r))).
  assert (Hrem : 0 <= remaining <= Node.Total (node r)) by (unfold inT in *; lia).
  pose proof (floor_multiple remaining factor (proj1 Hrem) Hpos) as Hfloor.
  unfold udiv. destruct (Z.eqb_spec factor 0) as [?|_]; [lia|]. cbn [bind].
  assert (Hmul : umul (remaining / factor) factor = remaining / factor * factor).
  { apply Z.mod_small. unfold inT in *. lia. }
  assert (Hinc : usub requested (Pod.Reserved (pod r)) = requested - Pod.Reserved (pod r)).
  { apply usub_small. unfold inT in *. lia. }
  rewrite Hmul, Hinc.
  set (maxIncrease := remaining / factor * factor) in *.
  destruct (Z.gtb_spec (requested - Pod.Reserved (pod r)) maxIncrease) as [Hcap|Hfit];
    eexists; (split; [reflexivity|]);
    rewrite clearBuffer_pod; unfold clearBuffer;
    match goal with |- context [negb ?b] => destruct b end; simpl;
    (rewrite (uadd_small (Pod.Reserved (pod r))) by (unfold inT in *; lia));
    repeat split; f_equal; lia.
Qed.

(** Where the increase path does quantise.  On the increase path of
    [handleRequested] ([requested > pod.Reserved],
    [startingMigration = false]) with [factor > 0], the change
    to [pod.Reserved] is non-negative and is the smaller of
    [requested - pod.Reserved] and [maxIncrease], the amount left in the node
    rounded down to a multiple of [factor].  It is a multiple of [factor]
    whenever the request is capped, and whenever [requested - pod.Reserved]
    is itself a multiple of [factor]. *)
Theorem handleRequested_quantised `{Unsigned} (r : resourceTransitioner)
  (requested factor : Z) :
  inT (Node.Total (node r)) -> inT (Node.Reserved (node r)) ->
  inT (Pod.Reserved (pod r)) -> inT requested -> inT factor -> 0 < factor ->
  Pod.Reserved (pod r) < requested ->
  exists r',
    handleRequested r requested false factor = Ok r'
    /\ 0 <= Pod.Reserved (pod r') - Pod.Reserved (pod r)
    /\ Pod.Reserved (pod r') - Pod.Reserved (pod r)
       = Z.min (requested - Pod.Reserved (pod r)) (maxIncreaseOf r factor)
    /\ quantised factor (maxIncreaseOf r factor)
    /\ (maxIncreaseOf r factor < requested - Pod.Reserved (pod r) ->
          quantised factor (Pod.Reserved (pod r') - Pod.Reserved (pod r)))
    /\ (quantised factor (requested - Pod.Reserved (pod r)) ->
          quantised factor (Pod.Reserved (pod r') - Pod.Reserved (pod r))).
Proof.
  intros HT HR HpR Hreq Hf Hpos Hlt.
  destruct (handleRequested_increase r requested factor HT HR HpR Hreq Hf Hpos Hlt)
    as (r' & Hrun & Hpod & _).
  assert (Hmax : quantised factor (maxIncreaseOf r factor)).
  { unfold maxIncreaseOf. rewrite SaturatingSub_spec by assumption.
    eexists. split; [|reflexivity]. apply Z.div_pos; lia. }
  assert (Hmax0 : 0 <= maxIncreaseOf r factor).
  { destruct Hmax as (k & Hk & ->). nia. }
  exists r'. split; [exact Hrun|].
  replace (Pod.Reserved (pod r') - Pod.Reserved (pod r))
    with (Z.min (requested - Pod.Reserved (pod r)) (maxIncreaseOf r factor)) by lia.
  split; [lia|]. split; [reflexivity|]. split; [exact Hmax|]. split.
  - intros Hcap. rewrite Z.min_r by lia. exact Hmax.
  - intros Hq. destruct (Z.min_spec (requested - Pod.Reserved (pod r)) (maxIncreaseOf r factor))
      as [[_ ->]|[_ ->]]; assumption.
Qed.

Lemma handleRequested_quantised_witness :
  let r := makeResourceTransitioner (Node.mk 8 1 6 6 0 0 0) (Pod.mk 3 0 0 1 8) in
  (inT (Node.Total (node r)) /\ inT (Node.Reserved (node r)) /\
   inT (Pod.Reserved (pod r)) /\ inT 6 /\ inT 4 /\ 0 < 4 /\ Pod.Reserved (pod r) < 6) /\
  exists r',
    handleRequested r 6 false 4 = Ok r'
    /\ quantised 4 (Pod.Reserved (pod r') - Pod.Reserved (pod r)).
Proof.
  intros r.
  assert (H1 : inT (Node.Total (node r))) by (subst r; inT_concrete).
  assert (H2 : inT (Node.Reserved (node r))) by (subst r; inT_concrete).
  assert (H3 : inT (Pod.Reserved (pod r))) by (subst r; inT_concrete).
  assert (H4 : inT 6) by inT_concrete.
  assert (H5 : inT 4) by inT_concrete.
  assert (H6 : 0 < 4) by lia.
  assert (H7 : Pod.Reserved (pod r) < 6) by (subst r; simpl; lia).
  split; [tauto|].
  destruct (handleRequested_quantised r 6 4 H1 H2 H3 H4 H5 H6 H7)
    as (r' & Hrun & _ & _ & _ & Hcap & _).
  exists r'. split; [exact Hrun|]. apply Hcap. subst r. vm_compute. reflexivity.
Defined.

(** ** Placement, migration start and deletion *)

(** C7. Round trip: placing a pod and then deleting it restores the node's
    [Reserved], [Buffer] and [CapacityPressure] (and leaves every other field
    of the node ledger as it was); placing it, starting its migration and
    then deleting it as a migrating pod restores them as well, and
    [PressureAccountedFor] is back at its value from before
    [handleStartMigration]. *)
Theorem placement_delete_roundtrip `{Unsigned} (n : nodeResourceState)
  (p : podResourceState) (source : bool) :
  Node.wf n ->
  node (handleDeleted (makeResourceTransitioner (placePod n p) p) false) = n
  /\ (let started := handleStartMigration (makeResourceTransitioner (placePod n p) p) source in
      let deleted := handleDeleted started true in
      Node.Reserved (node deleted) = Node.Reserved n
      /\ Node.Buffer (node deleted) = Node.Buffer n
      /\ Node.CapacityPressure (node deleted) = Node.CapacityPressure n
      /\ Node.PressureAccountedFor (node deleted) = Node.PressureAccountedFor (placePod n p)
      /\ node deleted = n).
Proof.
  intros (HT & HS & HW & HR & HB & HC & HA).
  destruct n as [T S W R B C A], p as [pR pB pC pMin pMax]; simpl in *.
  split.
  - unfold handleDeleted, placePod; simpl.
    destruct (Z.eqb_spec pB 0) as [->|Hne]; ledger_simpl; f_equal;
      push_wrap; wrap_back.
  - assert (Hzero : (usub pB pB =? 0) = true) by (rewrite usub_diag; reflexivity).
    unfold handleDeleted, handleStartMigration, reduceByBuffer, placePod; ledger_simpl.
    rewrite Hzero; ledger_simpl.
    assert (HR' : usub (usub (uadd R pR) pB) (usub pR pB) = R) by (push_wrap; wrap_back).
    assert (HB' : usub (uadd B pB) pB = B) by (push_wrap; wrap_back).
    assert (HC' : usub (usub (uadd C pC) pC) 0 = C) by (push_wrap; wrap_back).
    assert (HA' : usub (uadd A (usub pR pB)) (uadd (usub pR pB) 0) = A)
      by (push_wrap; wrap_back).
    rewrite HR', HB', HC', HA'. repeat split.
Qed.

(** Scenario S5's pod ([Reserved = 5], [Buffer = 2]) on a node that already
    holds 3 units. *)
Lemma placement_delete_roundtrip_witness :
  let n := Node.mk 16 1 12 3 0 0 0 in
  let p := Pod.mk 5 2 0 1 5 in
  Node.wf n /\
  node (handleDeleted (makeResourceTransitioner (placePod n p) p) false) = n /\
  node (handleDeleted
          (handleStartMigration (makeResourceTransitioner (placePod n p) p) true) true) = n.
Proof.
  intros n p.
  assert (Hn : Node.wf n) by (subst n; inT_concrete).
  split; [exact Hn|].
  destruct (placement_delete_roundtrip n p true Hn) as (Hdel & _ & _ & _ & _ & Hmig).
  split; [exact Hdel | exact Hmig].
Defined.

(** ** Pressure of a node *)

(** C1 on the code: both ledgers of [nodeAtWatermark] have
    [Reserved <= Watermark], so the claim has [tooMuchPressure] return false;
    the code returns true.  The memory test is strict, so the early return is
    missed, and [reserved - watermark] of the CPU wraps around to 65535. *)
Theorem tooMuchPressure_at_watermark :
  Node.Reserved (NodeState.vCPU nodeAtWatermark)
    <= Node.Watermark (NodeState.vCPU nodeAtWatermark)
  /\ Node.Reserved (NodeState.memSlots nodeAtWatermark)
    <= Node.Watermark (NodeState.memSlots nodeAtWatermark)
  /\ tooMuchPressure_spec nodeAtWatermark = false
  /\ tooMuchPressure nodeAtWatermark = true.
Proof. repeat split; vm_compute; congruence. Qed.

Section Pressure.
Context {Resources migrationQueue : Type}.
Implicit Type s : NodeState.nodeState Resources migrationQueue.

(** Where the code takes its early return it agrees with the claim. *)
Lemma tooMuchPressure_below_watermarks s :
  Node.Reserved (NodeState.vCPU s) <= Node.Watermark (NodeState.vCPU s) ->
  Node.Reserved (NodeState.memSlots s) < Node.Watermark (NodeState.memSlots s) ->
  tooMuchPressure s = false /\ tooMuchPressure_spec s = false.
Proof.
  intros Hc Hm. unfold tooMuchPressure, tooMuchPressure_spec.
  destruct (Z.leb_spec (Node.Reserved (NodeState.vCPU s)) (Node.Watermark (NodeState.vCPU s)));
    [|lia].
  destruct (Z.ltb_spec (Node.Reserved (NodeState.memSlots s))
              (Node.Watermark (NodeState.memSlots s))); [|lia].
  destruct (Z.leb_spec (Node.Reserved (NodeState.memSlots s))
              (Node.Watermark (NodeState.memSlots s))); [|lia].
  split; reflexivity.
Qed.

(** With both resources at or above their watermarks, one of them strictly,
    and sums that fit the 16 bits, the code computes what the claim says. *)
Lemma tooMuchPressure_above_watermarks s :
  Node.wf (NodeState.vCPU s) -> Node.wf (NodeState.memSlots s) ->
  Node.Watermark (NodeState.vCPU s) <= Node.Reserved (NodeState.vCPU s) ->
  Node.Watermark (NodeState.memSlots s) <= Node.Reserved (NodeState.memSlots s) ->
  Node.Watermark (NodeState.vCPU s) < Node.Reserved (NodeState.vCPU s)
  \/ Node.Watermark (NodeState.memSlots s) < Node.Reserved (NodeState.memSlots s) ->
  Node.Reserved (NodeState.vCPU s) - Node.Watermark (NodeState.vCPU s)
    + Node.CapacityPressure (NodeState.vCPU s) < modulus ->
  Node.Reserved (NodeState.memSlots s) - Node.Watermark (NodeState.memSlots s)
    + Node.CapacityPressure (NodeState.memSlots s) < modulus ->
  tooMuchPressure s = tooMuchPressure_spec s.
Proof.
  intros (_ & _ & HcW & HcR & _ & HcC & _) (_ & _ & HmW & HmR & _ & HmC & _).
  intros Hc Hm Hstrict Hcsum Hmsum.
  unfold tooMuchPressure, tooMuchPressure_spec.
  set (c := NodeState.vCPU s) in *. set (m := NodeState.memSlots s) in *.
  assert (Hlc : usub (Node.Reserved c) (Node.Watermark c)
                = Node.Reserved c - Node.Watermark c)
    by (apply usub_small; unfold inT in *; lia).
  assert (Hlm : usub (Node.Reserved m) (Node.Watermark m)
                = Node.Reserved m - Node.Watermark m)
    by (apply usub_small; unfold inT in *; lia).
  rewrite Hlc, Hlm.
  rewrite !uadd_small by (unfold inT in *; lia).
  rewrite !Z.max_r by lia.
  destruct (Z.leb_spec (Node.Reserved c) (Node.Watermark c));
    destruct (Z.ltb_spec (Node.Reserved m) (Node.Watermark m));
    destruct (Z.leb_spec (Node.Reserved m) (Node.Watermark m));
    simpl; try reflexivity; lia.
Qed.

End Pressure.

(** ** Removing a non-VM pod *)

Example subPod_cpu_underflow :
  subPod (NodeOther.mk (1 * nano) (4 * nano) 1 4) nano (PodOther.mk (2 * nano) 0)
  = Panic underflowCpuMsg.
Proof. reflexivity. Qed.

(** The CPU guard of [subPod] fires exactly when the pod holds more raw CPU
    than the node. *)
Lemma subPod_cpu_guard (r : nodeOtherResourceState) (memSlotSize : Quantity)
  (p : podOtherResourceState) :
  NodeOther.rawCpu r < PodOther.rawCpu p -> subPod r memSlotSize p = Panic underflowCpuMsg.
Proof.
  intros Hlt. unfold subPod, Quantity_Cmp.
  destruct (Z.ltb_spec (NodeOther.rawCpu r) (PodOther.rawCpu p)); [reflexivity | lia].
Qed.

(** The memory guard of [subPod] compares the node's raw memory with itself,
    and never fires. *)
Lemma subPod_memory_guard (r : nodeOtherResourceState) (memSlotSize : Quantity)
  (p : podOtherResourceState) :
  subPod r memSlotSize p <> Panic underflowMemoryMsg.
Proof.
  unfold subPod, Quantity_Cmp.
  destruct (NodeOther.rawCpu r <? PodOther.rawCpu p); [discriminate|].
  destruct (NodeOther.rawCpu r =? PodOther.rawCpu p); simpl;
    rewrite Z.ltb_irrefl, Z.eqb_refl; simpl;
    unfold calculateReserved, div64;
    destruct (Quantity_Value memSlotSize =? 0); simpl; try discriminate;
    match goal with |- context [if ?b then _ else _] => destruct b end; discriminate.
Qed.

(** C5 on the code: the pod holds two units of raw memory and the node one,
    so subtraction underflows and the claim has [subPod] panic; the code
    returns a state with a negative [rawMemory] and 65535 reserved slots. *)
Theorem subPod_memory_underflow :
  let r := NodeOther.mk (1 * nano) (1 * nano) 1 1 in
  let p := PodOther.mk 0 (2 * nano) in
  wouldUnderflow r p
  /\ subPod r nano p = Ok (NodeOther.mk (1 * nano) (- (1 * nano)) 1 65535)
  /\ is_panic (subPod r nano p) = false.
Proof.
  intros r p. split.
  - right. subst r p. simpl. unfold nano. lia.
  - split; vm_compute; reflexivity.
Qed.

(** ** Starting a migration *)

Section StartMigration.
Context {Resources Metrics migrationQueue config : Type}.
Variable removeIfPresent :
  migrationQueue -> gmap loc (PodState.podState Resources Metrics) -> loc
  -> migrationQueue * gmap loc Z.
Implicit Type s : Plugin.pluginState Resources Metrics migrationQueue config.

(** C10. [startMigration] on a pod whose [migrationState] is already non-nil
    returns a non-nil error and the plugin state it was given: the pod's
    [migrationState], the migration queue and every ledger are as before. *)
Theorem startMigration_already_migrating s (l : loc)
  (p : PodState.podState Resources Metrics) :
  Plugin.podStore s !! l = Some p ->
  PodState.migrationState p <> None ->
  startMigration removeIfPresent s (Some l) = Ok (s, Some alreadyMigrating).
Proof.
  intros Hl Hm. unfold startMigration, deref. rewrite Hl. cbn [bind].
  unfold currentlyMigrating. destruct (PodState.migrationState p); [reflexivity | congruence].
Qed.

Lemma writeIndices_lookup (written : gmap loc Z)
  (store : gmap loc (PodState.podState Resources Metrics)) (l : loc) :
  writeIndices written store !! l
  = (fun p => match written !! l with
              | Some i => PodState.set_mqIndex i p
              | None => p
              end) <$> store !! l.
Proof.
  unfold writeIndices. rewrite map_lookup_imap.
  destruct (store !! l); reflexivity.
Qed.

(** What [startMigration] does for a pod that is not migrating yet: the pod
    is marked as migrating, its ledgers are left alone, and the node's vCPU
    [pressureAccountedFor] grows by the pod's vCPU [reserved] and
    [capacityPressure]. *)
Lemma startMigration_vCPU s (lp ln : loc)
  (p : PodState.podState Resources Metrics)
  (n : NodeState.nodeState Resources migrationQueue) :
  Plugin.podStore s !! lp = Some p ->
  PodState.migrationState p = None ->
  PodState.node p = Some ln ->
  Plugin.nodeStore s !! ln = Some n ->
  exists s' p' n',
    startMigration removeIfPresent s (Some lp) = Ok (s', Some migrationUnimplemented)
    /\ Plugin.podStore s' !! lp = Some p'
    /\ Plugin.nodeStore s' !! ln = Some n'
    /\ PodState.migrationState p' = Some mkPodMigrationState
    /\ PodState.vCPU p' = PodState.vCPU p
    /\ PodState.memSlots p' = PodState.memSlots p
    /\ NodeState.vCPU n'
       = Node.set_PressureAccountedFor
           (uadd (Node.PressureAccountedFor (NodeState.vCPU n))
                 (uadd (Pod.Reserved (PodState.vCPU p))
                       (Pod.CapacityPressure (PodState.vCPU p))))
           (NodeState.vCPU n).
Proof.
  intros Hp Hm Hnode Hn. unfold startMigration, deref.
  rewrite Hp. cbn [bind]. unfold currentlyMigrating. rewrite Hm, Hnode, Hn. cbn [bind].
  destruct (removeIfPresent (NodeState.mq n) (Plugin.podStore s) lp) as [q written].
  cbn [Plugin.podStore Plugin.nodeStore Plugin.set_podStore Plugin.set_nodeStore].
  rewrite writeIndices_lookup, Hp.
  destruct (written !! lp) as [j|]; cbn [fmap option_fmap option_map bind];
    rewrite lookup_insert_eq; cbn [bind];
    cbn [PodState.node PodState.set_migrationState PodState.set_mqIndex];
    rewrite Hnode, lookup_insert_eq; cbn [bind];
    (eexists _, _, _; split; [reflexivity|]);
    cbn [Plugin.podStore Plugin.nodeStore Plugin.set_podStore Plugin.set_nodeStore];
    rewrite !lookup_insert_eq; repeat split.
Qed.

End StartMigration.

Lemma startMigration_already_migrating_witness :
  (Plugin.podStore (plugin1 (Some mkPodMigrationState)) !! 1%positive
     = Some (pod1 (Some mkPodMigrationState))
   /\ PodState.migrationState (pod1 (Some mkPodMigrationState)) <> None)
  /\ startMigration removeNothing (plugin1 (Some mkPodMigrationState)) (Some 1%positive)
     = Ok (plugin1 (Some mkPodMigrationState), Some alreadyMigrating).
Proof.
  assert (Hl : Plugin.podStore (plugin1 (Some mkPodMigrationState)) !! 1%positive
               = Some (pod1 (Some mkPodMigrationState)))
    by apply lookup_singleton_eq.
  assert (Hm : PodState.migrationState (pod1 (Some mkPodMigrationState)) <> None)
    by discriminate.
  split; [split; assumption|].
  exact (startMigration_already_migrating removeNothing _ _ _ Hl Hm).
Defined.

(** The state [startMigration] leaves for the pod of [plugin1]. *)
Lemma startMigration_plugin1 :
  startMigration removeNothing (plugin1 None) (Some 1%positive)
  = Ok (Plugin.mk {[ ("default", "vm-1") := 1%positive ]} {[ "node-1" := 1%positive ]} ∅
          7 7 (Some tt)
          {[ 1%positive := pod1 (Some mkPodMigrationState) ]}
          {[ 1%positive :=
               NodeState.mk "node-1" (Node.mk 8 1 6 3 0 0 3) (Node.mk 8 1 6 2 0 0 0)
                 None {[ ("default", "vm-1") := 1%positive ]} ∅ (NodeOther.mk 0 0 0 0) tt ]}
          ∅,
        Some migrationUnimplemented).
Proof.
  vm_compute. reflexivity.
Qed.

(** C9 on the code: starting a migration is to update the CPU and the memory
    ledger alike, as [handleStartMigration] does for one ledger.
    [startMigration] on the pod of [plugin1] (no buffer, no capacity
    pressure) leaves the vCPU ledgers as [handleStartMigration] would, and
    the memory ledgers of the pod and of its node as they were: the pod's two
    reserved memory slots are not added to the node's memory
    [pressureAccountedFor]. *)
Theorem startMigration_skips_memory :
  exists s' n' p',
    startMigration removeNothing (plugin1 None) (Some 1%positive)
      = Ok (s', Some migrationUnimplemented)
    /\ Plugin.nodeStore s' !! 1%positive = Some n'
    /\ Plugin.podStore s' !! 1%positive = Some p'
    /\ makeResourceTransitioner (NodeState.vCPU n') (PodState.vCPU p')
       = handleStartMigration
           (makeResourceTransitioner (NodeState.vCPU node1)
              (PodState.vCPU (pod1 None))) true
    /\ NodeState.memSlots n' = NodeState.memSlots node1
    /\ PodState.memSlots p' = PodState.memSlots (pod1 None)
    /\ makeResourceTransitioner (NodeState.memSlots n') (PodState.memSlots p')
       <> handleStartMigration
            (makeResourceTransitioner (NodeState.memSlots node1)
               (PodState.memSlots (pod1 None))) true.
Proof.
  eexists _, _, _. split; [apply startMigration_plugin1|].
  cbn [Plugin.nodeStore Plugin.podStore].
  split; [apply lookup_singleton_eq|]. split; [apply lookup_singleton_eq|].
  split; [reflexivity|]. split; [reflexivity|]. split; [reflexivity|].
  vm_compute. discriminate.
Qed.

(** What does hold of the two functions.  [handleStartMigration], on the one
    pair of ledgers it is applied to, performs the update of
    [handleAutoscalingDisabled] (the node's and the pod's [Reserved] and
    [Buffer] are reduced by [pod.Buffer],
    [pod.CapacityPressure] is cleared and subtracted from
    [node.CapacityPressure]) and then increases [node.PressureAccountedFor]
    by exactly the pod's resulting [Reserved].  The entry point
    [startMigration] does not go through it: for a pod that is not migrating
    yet it marks the pod as migrating, increases the vCPU
    [pressureAccountedFor] of the pod's node by the pod's vCPU
    [reserved + capacityPressure], and changes no other field of the vCPU
    ledgers. *)
Theorem startMigration_effect {Resources Metrics migrationQueue config : Type}
  (removeIfPresent :
     migrationQueue -> gmap loc (PodState.podState Resources Metrics) -> loc
     -> migrationQueue * gmap loc Z) :
  (forall (U : Unsigned) (r : resourceTransitioner) (source : bool),
     handleStartMigration r source
     = on_node (Node.set_PressureAccountedFor
                  (uadd (Node.PressureAccountedFor (node (handleAutoscalingDisabled r)))
                        (Pod.Reserved (pod (handleAutoscalingDisabled r)))))
               (handleAutoscalingDisabled r)
     /\ node (handleAutoscalingDisabled r)
        = Node.mk (Node.Total (node r)) (Node.System (node r)) (Node.Watermark (node r))
            (usub (Node.Reserved (node r)) (Pod.Buffer (pod r)))
            (usub (Node.Buffer (node r)) (Pod.Buffer (pod r)))
            (usub (Node.CapacityPressure (node r)) (Pod.CapacityPressure (pod r)))
            (Node.PressureAccountedFor (node r))
     /\ pod (handleAutoscalingDisabled r)
        = Pod.mk (usub (Pod.Reserved (pod r)) (Pod.Buffer (pod r))) 0 0
            (Pod.Min (pod r)) (Pod.Max (pod r)))
  /\ (forall (s : Plugin.pluginState Resources Metrics migrationQueue config)
        (lp ln : loc) (p : PodState.podState Resources Metrics)
        (n : NodeState.nodeState Resources migrationQueue),
        Plugin.podStore s !! lp = Some p ->
        PodState.migrationState p = None ->
        PodState.node p = Some ln ->
        Plugin.nodeStore s !! ln = Some n ->
        exists s' p' n',
          startMigration removeIfPresent s (Some lp)
            = Ok (s', Some migrationUnimplemented)
          /\ Plugin.podStore s' !! lp = Some p'
          /\ Plugin.nodeStore s' !! ln = Some n'
          /\ PodState.migrationState p' = Some mkPodMigrationState
          /\ PodState.vCPU p' = PodState.vCPU p
          /\ NodeState.vCPU n'
             = Node.set_PressureAccountedFor
                 (uadd (Node.PressureAccountedFor (NodeState.vCPU n))
                       (uadd (Pod.Reserved (PodState.vCPU p))
                             (Pod.CapacityPressure (PodState.vCPU p))))
                 (NodeState.vCPU n)).
Proof.
  split.
  - intros U r source. split; [reflexivity|].
    unfold handleAutoscalingDisabled, reduceByBuffer. ledger_simpl.
    rewrite usub_diag. split; reflexivity.
  - intros s lp ln p n Hp Hm Hnode Hn.
    destruct (startMigration_vCPU removeIfPresent s lp ln p n Hp Hm Hnode Hn)
      as (s' & p' & n' & Hrun & Hp' & Hn' & Hm' & Hv & _ & Hnv).
    exists s', p', n'. repeat split; assumption.
Qed.

Lemma startMigration_effect_witness :
  (Plugin.podStore (plugin1 None) !! 1%positive = Some (pod1 None)
   /\ PodState.migrationState (pod1 None) = None
   /\ PodState.node (pod1 None) = Some 1%positive
   /\ Plugin.nodeStore (plugin1 None) !! 1%positive = Some node1)
  /\ exists s' p' n',
       startMigration removeNothing (plugin1 None) (Some 1%positive)
         = Ok (s', Some migrationUnimplemented)
       /\ Plugin.podStore s' !! 1%positive = Some p'
       /\ Plugin.nodeStore s' !! 1%positive = Some n'
       /\ PodState.migrationState p' = Some mkPodMigrationState
       /\ PodState.vCPU p' = Pod.mk 3 0 0 1 4
       /\ NodeState.vCPU n' = Node.mk 8 1 6 3 0 0 3.
Proof.
  assert (Hp : Plugin.podStore (plugin1 None) !! 1%positive = Some (pod1 None))
    by apply lookup_singleton_eq.
  assert (Hn : Plugin.nodeStore (plugin1 None) !! 1%positive = Some node1)
    by apply lookup_singleton_eq.
  split; [repeat split; assumption|].
  exact (proj2 (startMigration_effect removeNothing)
           (plugin1 None) 1%positive 1%positive (pod1 None) node1
           Hp eq_refl eq_refl Hn).
Defined.

(** ** No hard overcommit *)


(** A non-autoscaling usage change is not bounded either. *)
Example usageChange_overcommits :
  trace (hydrated 8 1 6)
    [Placement podA (Pod.mk 4 0 0 4 4); NonAutoscalingUsageChange podA 9]
  = [ mkLedgers (Node.mk 8 1 6 4 0 0 0) {[ podA := Pod.mk 4 0 0 4 4 ]};
      mkLedgers (Node.mk 8 1 6 9 0 0 0) {[ podA := Pod.mk 9 0 0 4 4 ]} ].
Proof. vm_compute. reflexivity. Qed.

Section Accounting.
Context `{U : Unsigned}.








End Accounting.

Section Preservation.
Context `{U : Unsigned}.












End Preservation.

Example S2_trace :
  trace (hydrated 8 1 6) S2_events
  = [ mkLedgers (Node.mk 8 1 6 3 0 0 0) {[ podA := Pod.mk 3 0 0 1 8 ]};
      mkLedgers (Node.mk 8 1 6 6 0 0 0)
        (<[podB := Pod.mk 3 0 0 1 8]> {[ podA := Pod.mk 3 0 0 1 8 ]});
      mkLedgers (Node.mk 8 1 6 8 0 1 0)
        (<[podB := Pod.mk 3 0 0 1 8]> {[ podA := Pod.mk 5 0 1 1 8 ]});
      mkLedgers (Node.mk 8 1 6 5 0 1 0) {[ podA := Pod.mk 5 0 1 1 8 ]} ].
Proof. vm_compute. reflexivity. Qed.

(** Without [Buffer <= Reserved] at placement the bound fails: returning a
    buffer of 5 from a reservation of 1 wraps around. *)
Example placement_buffer_overcommits :
  trace (hydrated 8 1 6)
    [Placement podA (Pod.mk 1 5 0 1 1); AutoscalingDisabled podA]
  = [ mkLedgers (Node.mk 8 1 6 1 5 0 0) {[ podA := Pod.mk 1 5 0 1 1 ]};
      mkLedgers (Node.mk 8 1 6 65532 0 0 0) {[ podA := Pod.mk 65532 0 0 1 1 ]} ].
Proof. vm_compute. reflexivity. Qed.

(** No event of [mixed_events] panics, and the node ends empty. *)
Example mixed_trace :
  length (trace (hydrated 8 1 6) mixed_events) = length mixed_events
  /\ last (trace (hydrated 8 1 6) mixed_events) = Some (hydrated 8 1 6).
Proof. vm_compute. split; reflexivity. Qed.



(** * Further properties of the transitions *)

(** Closes an equation between two amounts of the unsigned type whose
    integer expressions are equal. *)
(** [ledger_simpl] in a hypothesis. *)
Ltac ledger_simpl_in H :=
  cbv beta iota zeta delta
    [node pod on_node on_pod
     Node.set_Reserved Node.set_Buffer Node.set_CapacityPressure
     Node.set_PressureAccountedFor
     Node.Total Node.System Node.Watermark Node.Reserved Node.Buffer
     Node.CapacityPressure Node.PressureAccountedFor
     Pod.set_Reserved Pod.set_Buffer Pod.set_CapacityPressure Pod.set_Min Pod.set_Max
     Pod.Reserved Pod.Buffer Pod.CapacityPressure Pod.Min Pod.Max] in H.

Ltac wrap_eq := push_wrap; first [reflexivity | f_equal; ring].

Lemma wrap_wrap `{Unsigned} (x : Z) : wrap (wrap x) = wrap x.
Proof. unfold wrap. apply Z.mod_mod. pose proof modulus_pos. lia. Qed.

Lemma usub_0_wrap `{Unsigned} (x : Z) : usub (wrap x) 0 = wrap x.
Proof. apply usub_0_r, wrap_inT. Qed.

Lemma usub_0_usub `{Unsigned} (x y : Z) : usub (usub x y) 0 = usub x y.
Proof. apply usub_0_wrap. Qed.

Lemma usub_0_uadd `{Unsigned} (x y : Z) : usub (uadd x y) 0 = uadd x y.
Proof. apply usub_0_wrap. Qed.

Lemma triple_eq (a b c a' b' c' : Z) :
  a = a' -> b = b' -> c = c' -> (a, b, c) = (a', b', c').
Proof. intros -> -> ->. reflexivity. Qed.

(** X1. Every transition of a pod that stays on its node leaves the share of
    the other pods as it was: the node's [Reserved], [Buffer] and
    [CapacityPressure] less the pod's are the same before and after
    [handleLastPermit], [handleRequested] (when it does not panic),
    [handleNonAutoscalingUsageChange], [handleAutoscalingDisabled],
    [handleStartMigration] and [handleUpdatedLimits], whatever their
    arguments. *)
Theorem transitions_conserve_share `{Unsigned} (r : resourceTransitioner) :
  (forall lastPermit, othersShare (handleLastPermit r lastPermit) = othersShare r)
  /\ (forall requested startingMigration factor r',
        handleRequested r requested startingMigration factor = Ok r' ->
        othersShare r' = othersShare r)
  /\ (forall newUsage, othersShare (handleNonAutoscalingUsageChange r newUsage) = othersShare r)
  /\ othersShare (handleAutoscalingDisabled r) = othersShare r
  /\ (forall source, othersShare (handleStartMigration r source) = othersShare r)
  /\ (forall receivedContact newMin newMax,
        othersShare
          (makeResourceTransitioner
             (fst (handleUpdatedLimits (node r) (pod r) receivedContact newMin newMax))
             (snd (handleUpdatedLimits (node r) (pod r) receivedContact newMin newMax)))
        = othersShare r).
Proof.
  destruct r as [[T S W R B C A] [pR pB pC pMin pMax]].
  repeat apply conj.
  - intros v. unfold handleLastPermit, clearBuffer, othersShare. ledger_simpl.
    destruct (v <=? pR); [|reflexivity]. ledger_simpl.
    destruct (Z.eqb_spec pB 0) as [->|_]; cbn [negb]; ledger_simpl;
      apply triple_eq; wrap_eq.
  - intros req sm f r'. unfold handleRequested, clearBuffer, othersShare, udiv.
    ledger_simpl.
    destruct (req <=? pR).
    + intros [= <-]. ledger_simpl.
      destruct (Z.eqb_spec pB 0) as [->|_]; cbn [negb]; ledger_simpl;
        apply triple_eq; wrap_eq.
    + destruct sm.
      * destruct (Z.eqb_spec pB 0) as [->|_]; cbn [negb]; [|discriminate].
        intros [= <-]. ledger_simpl. apply triple_eq; wrap_eq.
      * destruct (f =? 0); cbn [bind]; [discriminate|].
        match goal with |- context [if ?c then _ else _] => destruct c end;
          intros [= <-]; ledger_simpl;
          (destruct (Z.eqb_spec pB 0) as [->|_]); cbn [negb]; ledger_simpl;
          apply triple_eq; wrap_eq.
  - intros u. unfold handleNonAutoscalingUsageChange, othersShare. ledger_simpl.
    apply triple_eq; wrap_eq.
  - unfold handleAutoscalingDisabled, reduceByBuffer, othersShare. ledger_simpl.
    apply triple_eq; wrap_eq.
  - intros source. unfold handleStartMigration, reduceByBuffer, othersShare. ledger_simpl.
    apply triple_eq; wrap_eq.
  - intros rc mn mx. unfold handleUpdatedLimits, othersShare. ledger_simpl.
    destruct ((mn =? pMin) && (mx =? pMax)); [reflexivity|].
    destruct (negb rc && negb (pMax =? mx)); ledger_simpl; [|reflexivity].
    cbn [fst snd]. ledger_simpl.
    generalize (Max mx (usub pR pB)) (usub pR pB). intros m u.
    apply triple_eq; wrap_eq.
Qed.

(** X2. [handleDeleted] leaves on the node exactly the share of the other
    pods: the node's [Reserved], [Buffer] and [CapacityPressure] become the
    amounts less the pod's.  [Total], [System] and [Watermark] are kept,
    [PressureAccountedFor] is lowered by the pod's
    [Reserved + CapacityPressure] when the pod was migrating and kept
    otherwise, and the pod's own ledger is not written. *)
Theorem handleDeleted_leaves_share `{Unsigned} (r : resourceTransitioner)
  (currentlyMigrating : bool) :
  inT (Node.Buffer (node r)) ->
  node (handleDeleted r currentlyMigrating)
  = Node.mk (Node.Total (node r)) (Node.System (node r)) (Node.Watermark (node r))
      (usub (Node.Reserved (node r)) (Pod.Reserved (pod r)))
      (usub (Node.Buffer (node r)) (Pod.Buffer (pod r)))
      (usub (Node.CapacityPressure (node r)) (Pod.CapacityPressure (pod r)))
      (if currentlyMigrating
       then usub (Node.PressureAccountedFor (node r))
                 (uadd (Pod.Reserved (pod r)) (Pod.CapacityPressure (pod r)))
       else Node.PressureAccountedFor (node r))
  /\ pod (handleDeleted r currentlyMigrating) = pod r.
Proof.
  intros HB. destruct r as [[T S W R B C A] [pR pB pC pMin pMax]].
  cbn [node pod Node.Buffer] in HB.
  unfold handleDeleted. ledger_simpl.
  destruct currentlyMigrating; ledger_simpl;
    (destruct (Z.eqb_spec pB 0) as [->|_]); cbn [negb]; ledger_simpl;
    rewrite ?usub_0_r by exact HB; split; reflexivity.
Qed.

Lemma handleDeleted_leaves_share_witness :
  let r := makeResourceTransitioner (Node.mk 8 1 6 8 2 1 5) (Pod.mk 5 2 1 1 5) in
  inT (Node.Buffer (node r))
  /\ node (handleDeleted r true) = Node.mk 8 1 6 3 0 0 65535
  /\ node (handleDeleted r false) = Node.mk 8 1 6 3 0 0 5.
Proof.
  intros r.
  assert (HB : inT (Node.Buffer (node r))) by (subst r; inT_concrete).
  split; [exact HB|].
  split.
  - exact (proj1 (handleDeleted_leaves_share r true HB)).
  - exact (proj1 (handleDeleted_leaves_share r false HB)).
Defined.

(** X3. [handleLastPermit] is idempotent: replaying the same last permit a
    second time changes nothing, whatever the ledgers and the permit. *)
Theorem handleLastPermit_idempotent `{Unsigned} (r : resourceTransitioner) (lastPermit : Z) :
  handleLastPermit (handleLastPermit r lastPermit) lastPermit = handleLastPermit r lastPermit.
Proof.
  destruct r as [[T S W R B C A] [pR pB pC pMin pMax]].
  unfold handleLastPermit, clearBuffer. ledger_simpl.
  destruct (Z.leb_spec lastPermit pR) as [Hle|Hgt]; ledger_simpl.
  - destruct (Z.eqb_spec pB 0) as [->|_]; cbn [negb]; ledger_simpl;
      rewrite Z.leb_refl; ledger_simpl; cbn [Z.eqb negb];
      rewrite usub_diag, usub_0_usub; reflexivity.
  - destruct (Z.leb_spec lastPermit pR); [lia | reflexivity].
Qed.

(** X4. [handleAutoscalingDisabled] leaves the pod without buffer and
    without capacity pressure, and is idempotent. *)
Theorem handleAutoscalingDisabled_idempotent `{Unsigned} (r : resourceTransitioner) :
  Pod.Buffer (pod (handleAutoscalingDisabled r)) = 0
  /\ Pod.CapacityPressure (pod (handleAutoscalingDisabled r)) = 0
  /\ handleAutoscalingDisabled (handleAutoscalingDisabled r) = handleAutoscalingDisabled r.
Proof.
  destruct r as [[T S W R B C A] [pR pB pC pMin pMax]].
  unfold handleAutoscalingDisabled, reduceByBuffer. ledger_simpl.
  rewrite !usub_diag, !usub_0_usub. repeat split.
Qed.

(** X5. Non-autoscaling usage changes compose: two changes in a row leave
    the ledgers that the second alone would, and a change back to the pod's
    current [Reserved] changes nothing. *)
Theorem handleNonAutoscalingUsageChange_compose `{Unsigned} (r : resourceTransitioner)
  (usage1 usage2 : Z) :
  handleNonAutoscalingUsageChange (handleNonAutoscalingUsageChange r usage1) usage2
    = handleNonAutoscalingUsageChange r usage2
  /\ (inT (Node.Reserved (node r)) ->
      handleNonAutoscalingUsageChange r (Pod.Reserved (pod r)) = r).
Proof.
  destruct r as [[T S W R B C A] [pR pB pC pMin pMax]].
  unfold handleNonAutoscalingUsageChange. ledger_simpl. split.
  - f_equal. f_equal. wrap_eq.
  - cbn [node Node.Reserved]. intros HR. f_equal. f_equal.
    push_wrap. wrap_back.
Qed.

Lemma handleNonAutoscalingUsageChange_compose_witness :
  let r := makeResourceTransitioner (Node.mk 8 1 6 5 0 0 0) (Pod.mk 2 0 0 2 2) in
  inT (Node.Reserved (node r))
  /\ handleNonAutoscalingUsageChange (handleNonAutoscalingUsageChange r 4) 2 = r.
Proof.
  intros r.
  assert (HR : inT (Node.Reserved (node r))) by (subst r; inT_concrete).
  split; [exact HR|].
  destruct (handleNonAutoscalingUsageChange_compose r 4 2) as [Hcomp Hback].
  rewrite Hcomp. exact (Hback HR).
Defined.

Lemma handleUpdatedLimits_same `{Unsigned} (n : nodeResourceState)
  (p : podResourceState) (receivedContact : bool) :
  handleUpdatedLimits n p receivedContact (Pod.Min p) (Pod.Max p) = (n, p).
Proof. unfold handleUpdatedLimits. now rewrite !Z.eqb_refl. Qed.

Lemma handleUpdatedLimits_set `{Unsigned} (n : nodeResourceState)
  (p : podResourceState) (receivedContact : bool) (newMin newMax : Z) :
  Pod.Min (snd (handleUpdatedLimits n p receivedContact newMin newMax)) = newMin
  /\ Pod.Max (snd (handleUpdatedLimits n p receivedContact newMin newMax)) = newMax.
Proof.
  unfold handleUpdatedLimits.
  destruct (Z.eqb_spec newMin (Pod.Min p)) as [Hmin|Hmin];
    destruct (Z.eqb_spec newMax (Pod.Max p)) as [Hmax|Hmax]; cbn [andb fst snd];
    try (split; congruence);
    destruct (negb receivedContact && negb (Pod.Max p =? newMax));
    cbn [fst snd]; ledger_simpl; split; reflexivity.
Qed.

(** X6. [handleUpdatedLimits] always leaves the pod with the new limits; a
    second call with the same arguments changes nothing; and once the agent
    has made contact, or when the maximum is not changed, no amount of
    either ledger changes. *)
Theorem handleUpdatedLimits_limits `{Unsigned} (n : nodeResourceState)
  (p : podResourceState) (receivedContact : bool) (newMin newMax : Z) :
  let n' := fst (handleUpdatedLimits n p receivedContact newMin newMax) in
  let p' := snd (handleUpdatedLimits n p receivedContact newMin newMax) in
  Pod.Min p' = newMin /\ Pod.Max p' = newMax
  /\ handleUpdatedLimits n' p' receivedContact newMin newMax = (n', p')
  /\ (receivedContact = true \/ newMax = Pod.Max p ->
      n' = n /\ Pod.Reserved p' = Pod.Reserved p /\ Pod.Buffer p' = Pod.Buffer p
      /\ Pod.CapacityPressure p' = Pod.CapacityPressure p).
Proof.
  intros n' p'.
  destruct (handleUpdatedLimits_set n p receivedContact newMin newMax) as [Hmin Hmax].
  fold p' in Hmin, Hmax.
  split; [exact Hmin|]. split; [exact Hmax|]. split.
  - rewrite <- Hmin at 1. rewrite <- Hmax at 1. apply handleUpdatedLimits_same.
  - intros Hkeep. subst n' p'. unfold handleUpdatedLimits.
    destruct ((newMin =? Pod.Min p) && (newMax =? Pod.Max p)); cbn [fst snd];
      [repeat split|].
    assert (Hno : negb receivedContact && negb (Pod.Max p =? newMax) = false).
    { destruct Hkeep as [->| ->]; [reflexivity|].
      rewrite Z.eqb_refl. apply andb_false_r. }
    rewrite Hno. cbn [fst snd]. ledger_simpl. repeat split.
Qed.

Lemma handleUpdatedLimits_limits_witness :
  let n := Node.mk 8 1 6 4 0 0 0 in
  let p := Pod.mk 4 0 0 1 4 in
  (true = true \/ 6 = Pod.Max p)
  /\ fst (handleUpdatedLimits n p true 1 6) = n
  /\ snd (handleUpdatedLimits n p true 1 6) = Pod.mk 4 0 0 1 6.
Proof.
  intros n p.
  assert (Hc : true = true \/ 6 = Pod.Max p) by (left; reflexivity).
  split; [exact Hc|].
  destruct (handleUpdatedLimits_limits n p true 1 6) as (_ & _ & _ & Hkeep).
  destruct (Hkeep Hc) as (Hn & _).
  split; [exact Hn | reflexivity].
Defined.

(** X7. Without contact from the agent, a change of the maximum recomputes
    the buffer: what the pod is taken to be using, [Reserved - Buffer], is
    kept; the pod reserves the larger of the new maximum and that usage, so
    never less than it is using; and the node's [Reserved] and [Buffer] move
    by the pod's differences. *)
Theorem handleUpdatedLimits_buffer `{Unsigned} (n : nodeResourceState)
  (p : podResourceState) (newMin newMax : Z) :
  inT (Pod.Reserved p) -> inT (Pod.Buffer p) -> Pod.Buffer p <= Pod.Reserved p ->
  inT newMax -> newMax <> Pod.Max p ->
  let n' := fst (handleUpdatedLimits n p false newMin newMax) in
  let p' := snd (handleUpdatedLimits n p false newMin newMax) in
  Pod.Reserved p' = Z.max newMax (Pod.Reserved p - Pod.Buffer p)
  /\ Pod.Reserved p' - Pod.Buffer p' = Pod.Reserved p - Pod.Buffer p
  /\ 0 <= Pod.Buffer p' <= Pod.Reserved p'
  /\ Node.Reserved n' = usub (uadd (Node.Reserved n) (Pod.Reserved p')) (Pod.Reserved p)
  /\ Node.Buffer n' = usub (uadd (Node.Buffer n) (Pod.Buffer p')) (Pod.Buffer p)
  /\ Node.Total n' = Node.Total n
  /\ Node.CapacityPressure n' = Node.CapacityPressure n
  /\ Node.PressureAccountedFor n' = Node.PressureAccountedFor n
  /\ Pod.CapacityPressure p' = Pod.CapacityPressure p.
Proof.
  destruct n as [T S W R B C A], p as [pR pB pC pMin pMax].
  cbn [Pod.Reserved Pod.Buffer Pod.Max]. intros HpR HpB Hle Hmx Hne.
  unfold handleUpdatedLimits. cbv zeta. ledger_simpl.
  destruct (Z.eqb_spec newMax pMax) as [?|_]; [congruence|].
  destruct (Z.eqb_spec pMax newMax) as [?|_]; [congruence|].
  rewrite andb_false_r. cbn [negb andb fst snd]. ledger_simpl.
  assert (Hu : usub pR pB = pR - pB) by (apply usub_small; unfold inT in *; lia).
  rewrite Hu.
  assert (Hm : Max newMax (pR - pB) = Z.max newMax (pR - pB)).
  { unfold Max. destruct (Z.ltb_spec newMax (pR - pB)); lia. }
  rewrite Hm.
  assert (Hb : usub (Z.max newMax (pR - pB)) (pR - pB) = Z.max newMax (pR - pB) - (pR - pB))
    by (apply usub_small; unfold inT in *; lia).
  rewrite Hb. unfold inT in *. repeat split; lia.
Qed.

(** Scenario S6, second step: a pod using 4 units whose maximum is raised
    from 2 to 6 before its agent makes contact. *)
Lemma handleUpdatedLimits_buffer_witness :
  let n := Node.mk 8 1 6 4 0 0 0 in
  let p := Pod.mk 4 0 0 1 2 in
  (inT (Pod.Reserved p) /\ inT (Pod.Buffer p) /\ Pod.Buffer p <= Pod.Reserved p
   /\ inT 6 /\ 6 <> Pod.Max p)
  /\ Pod.Reserved (snd (handleUpdatedLimits n p false 1 6)) = 6
  /\ Pod.Reserved (snd (handleUpdatedLimits n p false 1 6))
     - Pod.Buffer (snd (handleUpdatedLimits n p false 1 6)) = 4
  /\ handleUpdatedLimits n p false 1 6 = (Node.mk 8 1 6 6 2 0 0, Pod.mk 6 2 0 1 6).
Proof.
  intros n p.
  assert (H1 : inT (Pod.Reserved p)) by (subst p; inT_concrete).
  assert (H2 : inT (Pod.Buffer p)) by (subst p; inT_concrete).
  assert (H3 : Pod.Buffer p <= Pod.Reserved p) by (subst p; simpl; lia).
  assert (H4 : inT 6) by inT_concrete.
  assert (H5 : 6 <> Pod.Max p) by (subst p; simpl; lia).
  split; [tauto|].
  destruct (handleUpdatedLimits_buffer n p 1 6 H1 H2 H3 H4 H5) as (HR & Hu & _).
  split; [exact HR|]. split; [exact Hu | reflexivity].
Defined.

(** ** Requests *)

Lemma uadd_0_wrap `{Unsigned} (x : Z) : uadd (wrap x) 0 = wrap x.
Proof. unfold uadd. rewrite Z.add_0_r. apply wrap_wrap. Qed.

Lemma uadd_0_usub `{Unsigned} (x y : Z) : uadd (usub x y) 0 = usub x y.
Proof. apply uadd_0_wrap. Qed.

Lemma uadd_0_uadd `{Unsigned} (x y : Z) : uadd (uadd x y) 0 = uadd x y.
Proof. apply uadd_0_wrap. Qed.

(** The increase path of [handleRequested] in full: [g] units are granted,
    and the rest of the request becomes capacity pressure. *)
Lemma handleRequested_grant `{Unsigned} (T S W R B C A pR pB pC pMin pMax : Z)
  (requested factor : Z) :
  inT T -> inT R -> inT pR -> inT requested -> inT factor -> 0 < factor ->
  pR < requested ->
  let r := makeResourceTransitioner (Node.mk T S W R B C A) (Pod.mk pR pB pC pMin pMax) in
  let g := Z.min (requested - pR) (maxIncreaseOf r factor) in
  handleRequested r requested false factor
  = Ok (makeResourceTransitioner
          (Node.mk T S W (uadd R g) (if pB =? 0 then B else usub B pB)
             (uadd (usub C pC) (requested - pR - g)) A)
          (Pod.mk (pR + g) 0 (requested - pR - g) pMin pMax))
  /\ 0 <= g <= requested - pR
  /\ g <= maxIncreaseOf r factor
  /\ maxIncreaseOf r factor <= Z.max 0 (T - R).
Proof.
  intros HT HR HpR Hreq Hf Hpos Hlt r g.
  set (m := maxIncreaseOf r factor) in *.
  assert (Hm : m = SaturatingSub T R / factor * factor) by reflexivity.
  assert (Hm' : r = r) by reflexivity. subst r.
  assert (Hmax : 0 <= m <= Z.max 0 (T - R)).
  { rewrite Hm, SaturatingSub_spec by assumption.
    pose proof (floor_multiple (Z.max 0 (T - R)) factor). lia. }
  assert (Hgdef : g = Z.min (requested - pR) m) by reflexivity.
  clearbody g. clearbody m. clear Hm'.
  split; [|lia].
  unfold handleRequested. cbv zeta. ledger_simpl.
  destruct (Z.leb_spec requested pR) as [?|_]; [lia|].
  unfold udiv. destruct (Z.eqb_spec factor 0) as [?|_]; [lia|]. cbn [bind].
  assert (Hmul : umul (SaturatingSub T R / factor) factor = m).
  { rewrite Hm. apply Z.mod_small. rewrite <- Hm. unfold inT in *. lia. }
  rewrite Hmul.
  assert (Hinc : usub requested pR = requested - pR)
    by (apply usub_small; unfold inT in *; lia).
  rewrite Hinc.
  destruct (Z.gtb_spec (requested - pR) m) as [Hcap|Hfit];
    unfold clearBuffer; ledger_simpl.
  - assert (Hg : g = m) by lia.
    rewrite (usub_small (requested - pR)) by (unfold inT in *; lia).
    rewrite (uadd_small pR) by (unfold inT in *; lia).
    rewrite Hg. destruct (Z.eqb_spec pB 0) as [->|_]; cbn [negb]; ledger_simpl; reflexivity.
  - assert (Hg : g = requested - pR) by lia.
    rewrite (uadd_small pR) by (unfold inT in *; lia).
    rewrite Hg. replace (requested - pR - (requested - pR)) with 0 by lia.
    rewrite uadd_0_usub.
    destruct (Z.eqb_spec pB 0) as [->|_]; cbn [negb]; ledger_simpl; reflexivity.
Qed.

(** X8. Whatever path [handleRequested] takes, the request is accounted for
    in full: afterwards [pod.Reserved + pod.CapacityPressure = requested].
    The permit [pod.Reserved] never exceeds the request, and a request for
    more never lowers it. *)
Theorem handleRequested_accounts_request `{Unsigned} (r r' : resourceTransitioner)
  (requested factor : Z) (startingMigration : bool) :
  inT (Node.Total (node r)) -> inT (Node.Reserved (node r)) ->
  inT (Pod.Reserved (pod r)) -> inT requested -> inT factor ->
  handleRequested r requested startingMigration factor = Ok r' ->
  Pod.Reserved (pod r') + Pod.CapacityPressure (pod r') = requested
  /\ 0 <= Pod.CapacityPressure (pod r')
  /\ Pod.Reserved (pod r') <= requested
  /\ (Pod.Reserved (pod r) <= requested -> Pod.Reserved (pod r) <= Pod.Reserved (pod r')).
Proof.
  destruct r as [[T S W R B C A] [pR pB pC pMin pMax]].
  cbn [node pod Node.Total Node.Reserved Pod.Reserved].
  intros HT HR HpR Hreq Hf Hrun.
  destruct (Z.leb_spec requested pR) as [Hle|Hgt].
  - unfold handleRequested in Hrun. ledger_simpl_in Hrun.
    apply Z.leb_le in Hle as Hle'. rewrite Hle' in Hrun.
    injection Hrun as <-. rewrite clearBuffer_pod. ledger_simpl. lia.
  - destruct startingMigration.
    + unfold handleRequested in Hrun. ledger_simpl_in Hrun.
      destruct (Z.leb_spec requested pR); [lia|].
      destruct (negb (pB =? 0)); [discriminate|].
      injection Hrun as <-. ledger_simpl.
      rewrite usub_small by (unfold inT in *; lia). lia.
    + assert (Hpos : 0 < factor).
      { destruct (Z.eq_dec factor 0) as [->|Hne]; [|unfold inT in Hf; lia].
        unfold handleRequested, udiv in Hrun. ledger_simpl_in Hrun.
        destruct (Z.leb_spec requested pR); [lia|].
        cbn [bind Z.eqb] in Hrun. discriminate. }
      destruct (handleRequested_grant T S W R B C A pR pB pC pMin pMax requested factor
                  HT HR HpR Hreq Hf Hpos Hgt) as (Hrun' & Hg & _).
      rewrite Hrun' in Hrun. injection Hrun as <-. ledger_simpl. lia.
Qed.

Lemma handleRequested_accounts_request_witness :
  let r := makeResourceTransitioner (Node.mk 8 1 6 6 0 0 0) (Pod.mk 3 0 0 1 8) in
  let r' := makeResourceTransitioner (Node.mk 8 1 6 8 0 1 0) (Pod.mk 5 0 1 1 8) in
  (inT (Node.Total (node r)) /\ inT (Node.Reserved (node r)) /\ inT (Pod.Reserved (pod r))
   /\ inT 6 /\ inT 1 /\ handleRequested r 6 false 1 = Ok r')
  /\ Pod.Reserved (pod r') + Pod.CapacityPressure (pod r') = 6.
Proof.
  intros r r'.
  assert (H1 : inT (Node.Total (node r))) by (subst r; inT_concrete).
  assert (H2 : inT (Node.Reserved (node r))) by (subst r; inT_concrete).
  assert (H3 : inT (Pod.Reserved (pod r))) by (subst r; inT_concrete).
  assert (H4 : inT 6) by inT_concrete.
  assert (H5 : inT 1) by inT_concrete.
  assert (H6 : handleRequested r 6 false 1 = Ok r') by reflexivity.
  split; [tauto|].
  exact (proj1 (handleRequested_accounts_request r r' 6 1 false H1 H2 H3 H4 H5 H6)).
Defined.

(** X9. [handleRequested] panics in exactly two cases, both on a request for
    more than the pod has: when the pod is starting a migration while it
    still holds a buffer, and when an increase is to be granted with a zero
    [factor] (division by zero).  A request that does not exceed
    [pod.Reserved] never panics. *)
Theorem handleRequested_panics `{Unsigned} (r : resourceTransitioner)
  (requested factor : Z) (startingMigration : bool) :
  is_panic (handleRequested r requested startingMigration factor) = true
  <-> Pod.Reserved (pod r) < requested
      /\ ((startingMigration = true /\ Pod.Buffer (pod r) <> 0)
          \/ (startingMigration = false /\ factor = 0)).
Proof.
  destruct r as [[T S W R B C A] [pR pB pC pMin pMax]].
  unfold handleRequested, udiv. cbv zeta. ledger_simpl.
  destruct (Z.leb_spec requested pR) as [Hle|Hgt].
  - cbn [is_panic]. split; [discriminate | lia].
  - destruct startingMigration.
    + destruct (Z.eqb_spec pB 0) as [->|Hne]; cbn [negb is_panic].
      * split; [discriminate|]. intros (_ & [[_ ?]|[? _]]); congruence.
      * split; [|reflexivity]. intros _. split; [lia|]. left. split; [reflexivity|exact Hne].
    + destruct (Z.eqb_spec factor 0) as [->|Hne]; cbn [bind is_panic].
      * split; [|reflexivity]. intros _. split; [lia|]. right. split; reflexivity.
      * match goal with |- context [if ?c then _ else _] => destruct c end;
          cbn [is_panic]; (split; [discriminate|]);
          intros (_ & [[? _]|[_ ?]]); congruence.
Qed.

(** X10. A request for more from a pod that is starting a migration (and
    holds no buffer) is denied: no [Reserved], [Buffer] or
    [PressureAccountedFor] changes; the pod's capacity pressure becomes the
    denied amount [requested - pod.Reserved], and the node's capacity
    pressure has the pod's old pressure replaced by the new one. *)
Theorem handleRequested_startingMigration `{Unsigned} (r : resourceTransitioner)
  (requested factor : Z) :
  inT requested -> inT (Pod.Reserved (pod r)) ->
  Pod.Reserved (pod r) < requested -> Pod.Buffer (pod r) = 0 ->
  handleRequested r requested true factor
  = Ok (makeResourceTransitioner
          (Node.set_CapacityPressure
             (usub (uadd (Node.CapacityPressure (node r))
                         (requested - Pod.Reserved (pod r)))
                   (Pod.CapacityPressure (pod r)))
             (node r))
          (Pod.set_CapacityPressure (requested - Pod.Reserved (pod r)) (pod r))).
Proof.
  destruct r as [[T S W R B C A] [pR pB pC pMin pMax]].
  cbn [pod node Pod.Reserved Pod.Buffer]. intros Hreq HpR Hlt ->.
  unfold handleRequested. cbv zeta. ledger_simpl.
  destruct (Z.leb_spec requested pR); [lia|].
  cbn [Z.eqb negb].
  rewrite (usub_small requested pR) by (unfold inT in *; lia).
  reflexivity.
Qed.

(** Scenario S4: a pod at 3 asks for 5 while starting its migration. *)
Lemma handleRequested_startingMigration_witness :
  let r := makeResourceTransitioner (Node.mk 8 1 6 6 0 0 3) (Pod.mk 3 0 0 1 8) in
  (inT 5 /\ inT (Pod.Reserved (pod r)) /\ Pod.Reserved (pod r) < 5 /\ Pod.Buffer (pod r) = 0)
  /\ handleRequested r 5 true 1
     = Ok (makeResourceTransitioner (Node.mk 8 1 6 6 0 2 3) (Pod.mk 3 0 2 1 8)).
Proof.
  intros r.
  assert (H1 : inT 5) by inT_concrete.
  assert (H2 : inT (Pod.Reserved (pod r))) by (subst r; inT_concrete).
  assert (H3 : Pod.Reserved (pod r) < 5) by (subst r; simpl; lia).
  assert (H4 : Pod.Buffer (pod r) = 0) by reflexivity.
  split; [tauto|].
  exact (handleRequested_startingMigration r 5 1 H1 H2 H3 H4).
Defined.

(** Once a capped grant has been made, nothing more can be granted: the
    amount left in the node is below [factor]. *)
Lemma maxIncreaseOf_after_cap `{Unsigned} (T R factor : Z) (np : nodeResourceState)
  (p' : podResourceState) :
  inT T -> inT R -> 0 < factor ->
  Node.Total np = T ->
  Node.Reserved np = uadd R (Z.max 0 (T - R) / factor * factor) ->
  maxIncreaseOf (makeResourceTransitioner np p') factor = 0.
Proof.
  intros HT HR Hpos HTn HRn.
  unfold maxIncreaseOf. cbn [node]. rewrite HTn, HRn.
  pose proof (floor_multiple (Z.max 0 (T - R)) factor ltac:(lia) Hpos) as Hfl.
  rewrite uadd_small by (unfold inT in *; lia).
  rewrite SaturatingSub_spec by (unfold inT in *; lia).
  destruct (Z.le_gt_cases R T) as [Hle|Hgt].
  - rewrite (Z.max_r 0 (T - R)) in * by lia.
    replace (Z.max 0 (T - (R + (T - R) / factor * factor))) with ((T - R) mod factor).
    + rewrite Z.div_small; [reflexivity|]. apply Z.mod_pos_bound. exact Hpos.
    + rewrite Z.mod_eq by lia. lia.
  - rewrite (Z.max_l 0 (T - R)) in * by lia.
    rewrite Z.div_0_l by lia. rewrite Z.max_l by lia. reflexivity.
Qed.

(** X11. [handleRequested] is idempotent: when the agent sends the same
    request again, with the same [factor] and migration flag, the second call
    leaves both ledgers as the first one left them. *)
Theorem handleRequested_idempotent `{Unsigned} (r r' : resourceTransitioner)
  (requested factor : Z) (startingMigration : bool) :
  inT (Node.Total (node r)) -> inT (Node.Reserved (node r)) ->
  inT (Pod.Reserved (pod r)) -> inT requested -> inT factor ->
  handleRequested r requested startingMigration factor = Ok r' ->
  handleRequested r' requested startingMigration factor = Ok r'.
Proof.
  destruct r as [[T S W R B C A] [pR pB pC pMin pMax]].
  cbn [node pod Node.Total Node.Reserved Pod.Reserved].
  intros HT HR HpR Hreq Hf Hrun.
  destruct (Z.leb_spec requested pR) as [Hle|Hgt].
  - unfold handleRequested in Hrun. ledger_simpl_in Hrun.
    apply Z.leb_le in Hle as Hle'. rewrite Hle' in Hrun.
    injection Hrun as <-.
    unfold handleRequested, clearBuffer. cbv zeta. ledger_simpl.
    destruct (Z.eqb_spec pB 0) as [->|_]; cbn [negb]; ledger_simpl;
      rewrite Z.leb_refl; cbn [Z.eqb negb];
      rewrite usub_diag, !usub_0_usub; reflexivity.
  - destruct startingMigration.
    + unfold handleRequested in Hrun. ledger_simpl_in Hrun.
      destruct (Z.leb_spec requested pR); [lia|].
      destruct (Z.eqb_spec pB 0) as [->|_]; cbn [negb] in Hrun; [|discriminate].
      injection Hrun as <-.
      unfold handleRequested. cbv zeta. ledger_simpl.
      destruct (Z.leb_spec requested pR); [lia|]. cbn [Z.eqb negb].
      do 3 f_equal. wrap_eq.
    + assert (Hpos : 0 < factor).
      { destruct (Z.eq_dec factor 0) as [->|Hne]; [|unfold inT in Hf; lia].
        unfold handleRequested, udiv in Hrun. ledger_simpl_in Hrun.
        destruct (Z.leb_spec requested pR); [lia|].
        cbn [bind Z.eqb] in Hrun. discriminate. }
      destruct (handleRequested_grant T S W R B C A pR pB pC pMin pMax requested factor
                  HT HR HpR Hreq Hf Hpos Hgt) as (Hrun' & Hg & Hgm & Hmb).
      cbv zeta in Hrun', Hg, Hgm, Hmb.
      set (m := maxIncreaseOf _ factor) in *.
      set (g := Z.min (requested - pR) m) in *.
      rewrite Hrun' in Hrun. injection Hrun as <-.
      destruct (Z.le_gt_cases (requested - pR) m) as [Hfit|Hcap].
      * (* granted in full: the second call is a notification *)
        assert (Hgv : g = requested - pR) by (subst g; lia).
        rewrite Hgv. replace (pR + (requested - pR)) with requested by lia.
        replace (requested - pR - (requested - pR)) with 0 by lia.
        unfold handleRequested, clearBuffer. cbv zeta. ledger_simpl.
        rewrite Z.leb_refl. cbn [Z.eqb negb].
        rewrite usub_diag, usub_0_uadd, usub_0_uadd. reflexivity.
      * (* capped: nothing is left to grant *)
        assert (Hgv : g = m) by (subst g; lia).
        assert (Hm : m = Z.max 0 (T - R) / factor * factor).
        { subst m. unfold maxIncreaseOf. cbn [node Node.Total Node.Reserved].
          now rewrite SaturatingSub_spec by assumption. }
        assert (HR' : inT (uadd R g)) by apply wrap_inT.
        assert (HpR' : inT (pR + g)) by (unfold inT in *; lia).
        assert (Hgt' : pR + g < requested) by lia.
        destruct (handleRequested_grant T S W (uadd R g) (if pB =? 0 then B else usub B pB)
                    (uadd (usub C pC) (requested - pR - g)) A
                    (pR + g) 0 (requested - pR - g) pMin pMax requested factor
                    HT HR' HpR' Hreq Hf Hpos Hgt') as (Hrun2 & _).
        cbv zeta in Hrun2. rewrite Hrun2. clear Hrun2.
        rewrite (maxIncreaseOf_after_cap T R factor);
          [|exact HT|exact HR|exact Hpos|reflexivity
           |cbn [Node.Reserved]; rewrite Hgv, Hm; reflexivity].
        rewrite Z.min_r by lia. cbn [Z.eqb].
        rewrite Z.add_0_r, Z.sub_0_r, uadd_0_uadd.
        replace (requested - (pR + g)) with (requested - pR - g) by lia.
        do 3 f_equal. wrap_eq.
Qed.

Lemma handleRequested_idempotent_witness :
  let r := makeResourceTransitioner (Node.mk 8 1 6 6 0 0 0) (Pod.mk 3 0 0 1 8) in
  let r' := makeResourceTransitioner (Node.mk 8 1 6 8 0 1 0) (Pod.mk 5 0 1 1 8) in
  (inT (Node.Total (node r)) /\ inT (Node.Reserved (node r)) /\ inT (Pod.Reserved (pod r))
   /\ inT 6 /\ inT 1 /\ handleRequested r 6 false 1 = Ok r')
  /\ handleRequested r' 6 false 1 = Ok r'.
Proof.
  intros r r'.
  assert (H1 : inT (Node.Total (node r))) by (subst r; inT_concrete).
  assert (H2 : inT (Node.Reserved (node r))) by (subst r; inT_concrete).
  assert (H3 : inT (Pod.Reserved (pod r))) by (subst r; inT_concrete).
  assert (H4 : inT 6) by inT_concrete.
  assert (H5 : inT 1) by inT_concrete.
  assert (H6 : handleRequested r 6 false 1 = Ok r') by reflexivity.
  split; [tauto|].
  exact (handleRequested_idempotent r r' 6 1 false H1 H2 H3 H4 H5 H6).
Defined.

(** * Further properties of the node state *)

Section NodeStateFacts.
Context {Resources migrationQueue : Type}.
Implicit Type s : NodeState.nodeState Resources migrationQueue.

(** X12. [remainingReservableCPU] and [remainingReservableMemSlots] are
    [total - system - reserved] as long as the reservation is within
    [total - system]; beyond it the subtraction does not saturate: it wraps
    around to [65536 - (reserved - (total - system))]. *)
Theorem remainingReservable_wraps s :
  Node.wf (NodeState.vCPU s) -> Node.wf (NodeState.memSlots s) ->
  Node.System (NodeState.vCPU s) <= Node.Total (NodeState.vCPU s) ->
  Node.System (NodeState.memSlots s) <= Node.Total (NodeState.memSlots s) ->
  remainingReservableCPU s
    = (if Node.Reserved (NodeState.vCPU s) <=? totalReservableCPU s
       then totalReservableCPU s - Node.Reserved (NodeState.vCPU s)
       else 65536 - (Node.Reserved (NodeState.vCPU s) - totalReservableCPU s))
  /\ remainingReservableMemSlots s
    = (if Node.Reserved (NodeState.memSlots s) <=? totalReservableMemSlots s
       then totalReservableMemSlots s - Node.Reserved (NodeState.memSlots s)
       else 65536 - (Node.Reserved (NodeState.memSlots s) - totalReservableMemSlots s))
  /\ totalReservableCPU s
     = Node.Total (NodeState.vCPU s) - Node.System (NodeState.vCPU s)
  /\ totalReservableMemSlots s
     = Node.Total (NodeState.memSlots s) - Node.System (NodeState.memSlots s).
Proof.
  intros (HcT & HcS & _ & HcR & _) (HmT & HmS & _ & HmR & _) Hc Hm.
  assert (Hmod : modulus = 65536) by reflexivity.
  assert (Htc : totalReservableCPU s
                = Node.Total (NodeState.vCPU s) - Node.System (NodeState.vCPU s))
    by (apply usub_small; unfold inT in *; lia).
  assert (Htm : totalReservableMemSlots s
                = Node.Total (NodeState.memSlots s) - Node.System (NodeState.memSlots s))
    by (apply usub_small; unfold inT in *; lia).
  assert (Hwrap : forall t x, 0 <= t < 65536 -> 0 <= x < 65536 ->
            usub t x = if x <=? t then t - x else 65536 - (x - t)).
  { intros t x Ht Hx. destruct (Z.leb_spec x t).
    - apply usub_small. rewrite Hmod. lia.
    - unfold usub, wrap. rewrite Hmod.
      replace (t - x) with (65536 - (x - t) + (-1) * 65536) by lia.
      rewrite Z_mod_plus_full. apply Z.mod_small. lia. }
  unfold remainingReservableCPU, remainingReservableMemSlots.
  rewrite Htc, Htm. unfold inT in *. rewrite Hmod in *.
  repeat split; apply Hwrap; lia.
Qed.

(** X13. [tooMuchPressure] is monotone in what is accounted for: when a node
    is not under too much pressure, it is not either after
    [pressureAccountedFor] has been raised, for either resource. *)
Theorem tooMuchPressure_accountedFor s (cpuAccountedFor memAccountedFor : Z) :
  Node.PressureAccountedFor (NodeState.vCPU s) <= cpuAccountedFor ->
  Node.PressureAccountedFor (NodeState.memSlots s) <= memAccountedFor ->
  tooMuchPressure s = false ->
  tooMuchPressure
    (NodeState.mk (NodeState.name s)
       (Node.set_PressureAccountedFor cpuAccountedFor (NodeState.vCPU s))
       (Node.set_PressureAccountedFor memAccountedFor (NodeState.memSlots s))
       (NodeState.computeUnit s) (NodeState.pods s) (NodeState.otherPods s)
       (NodeState.otherResources s) (NodeState.mq s)) = false.
Proof.
  destruct s as [nm [cT cS cW cR cB cC cA] [mT mS mW mR mB mC mA] cu ps ops ores q].
  cbn [NodeState.vCPU NodeState.memSlots NodeState.name NodeState.computeUnit
       NodeState.pods NodeState.otherPods NodeState.otherResources NodeState.mq
       Node.PressureAccountedFor].
  intros Hc Hm. unfold tooMuchPressure. cbn [NodeState.vCPU NodeState.memSlots].
  ledger_simpl.
  destruct ((cR <=? cW) && (mR <? mW)); [intros _; reflexivity|].
  intros Hnone. apply orb_false_iff in Hnone as [H1 H2].
  apply orb_false_iff. rewrite Z.gtb_ltb in *. rewrite Z.ltb_ge in *.
  split; lia.
Qed.

End NodeStateFacts.

Lemma remainingReservable_wraps_witness :
  let s : NodeState.nodeState unit unit :=
    NodeState.mk "node-1" (Node.mk 8 1 6 8 0 0 0) (Node.mk 8 1 6 2 0 0 0)
      None ∅ ∅ (NodeOther.mk 0 0 0 0) tt in
  (Node.wf (NodeState.vCPU s) /\ Node.wf (NodeState.memSlots s)
   /\ Node.System (NodeState.vCPU s) <= Node.Total (NodeState.vCPU s)
   /\ Node.System (NodeState.memSlots s) <= Node.Total (NodeState.memSlots s))
  /\ remainingReservableCPU s = 65535 /\ remainingReservableMemSlots s = 5.
Proof.
  intros s.
  assert (H1 : Node.wf (NodeState.vCPU s)) by (subst s; inT_concrete).
  assert (H2 : Node.wf (NodeState.memSlots s)) by (subst s; inT_concrete).
  assert (H3 : Node.System (NodeState.vCPU s) <= Node.Total (NodeState.vCPU s))
    by (subst s; simpl; lia).
  assert (H4 : Node.System (NodeState.memSlots s) <= Node.Total (NodeState.memSlots s))
    by (subst s; simpl; lia).
  split; [tauto|].
  destruct (remainingReservable_wraps s H1 H2 H3 H4) as (Hc & Hm & _).
  split; [exact Hc | exact Hm].
Defined.

Lemma tooMuchPressure_accountedFor_witness :
  let s : NodeState.nodeState unit unit :=
    NodeState.mk "node-1" (Node.mk 8 1 6 7 0 1 2) (Node.mk 8 1 6 6 0 0 0)
      None ∅ ∅ (NodeOther.mk 0 0 0 0) tt in
  (Node.PressureAccountedFor (NodeState.vCPU s) <= 5
   /\ Node.PressureAccountedFor (NodeState.memSlots s) <= 0
   /\ tooMuchPressure s = false)
  /\ tooMuchPressure
       (NodeState.mk "node-1" (Node.mk 8 1 6 7 0 1 5) (Node.mk 8 1 6 6 0 0 0)
          None ∅ ∅ (NodeOther.mk 0 0 0 0) tt : NodeState.nodeState unit unit) = false.
Proof.
  intros s.
  assert (H1 : Node.PressureAccountedFor (NodeState.vCPU s) <= 5) by (subst s; simpl; lia).
  assert (H2 : Node.PressureAccountedFor (NodeState.memSlots s) <= 0) by (subst s; simpl; lia).
  assert (H3 : tooMuchPressure s = false) by reflexivity.
  split; [tauto|].
  exact (tooMuchPressure_accountedFor s 5 0 H1 H2 H3).
Defined.

(** * Further properties of the non-VM resources *)

Lemma wrap64_small (x : Z) : - 2 ^ 63 <= x < 2 ^ 63 -> wrap64 x = x.
Proof. intros Hx. unfold wrap64. rewrite Z.mod_small by lia. lia. Qed.

Lemma Quantity_Value_covers (q : Quantity) :
  0 <= q -> 0 <= Quantity_Value q /\ q <= Quantity_Value q * nano < q + nano.
Proof.
  intros Hq. unfold Quantity_Value. destruct (Z.leb_spec 0 q); [|lia].
  assert (Hn : 0 < nano) by (unfold nano; lia).
  pose proof (Z.div_mod (q + nano - 1) nano ltac:(lia)) as Hdm.
  pose proof (Z.mod_pos_bound (q + nano - 1) nano Hn) as Hmod.
  pose proof (Z.div_pos (q + nano - 1) nano ltac:(lia) Hn). nia.
Qed.


Lemma calculateReserved_not_underflow (r : nodeOtherResourceState) (memSlotSize : Quantity) :
  calculateReserved r memSlotSize <> Panic underflowCpuMsg.
Proof.
  unfold calculateReserved, div64.
  destruct (Quantity_Value memSlotSize =? 0); cbn [bind]; [discriminate|].
  match goal with |- context [if ?b then _ else _] => destruct b end; discriminate.
Qed.

(** X14. [calculateReserved] rounds up and never under-reserves: for raw
    amounts that are not negative, a positive slot size and results within
    16 bits, it returns the node with its raw amounts unchanged,
    [reservedCpu] the least whole number of CPUs that covers [rawCpu], and
    [reservedMemSlots] the least number of slots that covers the memory. *)
Theorem calculateReserved_covers (r : nodeOtherResourceState) (memSlotSize : Quantity) :
  0 <= NodeOther.rawCpu r -> Quantity_Value (NodeOther.rawCpu r) < 2 ^ 16 ->
  0 <= NodeOther.rawMemory r -> 0 < Quantity_Value memSlotSize ->
  Quantity_Value (NodeOther.rawMemory r) + Quantity_Value memSlotSize < 2 ^ 63 ->
  Quantity_Value (NodeOther.rawMemory r) <= 65535 * Quantity_Value memSlotSize ->
  exists r',
    calculateReserved r memSlotSize = Ok r'
    /\ NodeOther.rawCpu r' = NodeOther.rawCpu r
    /\ NodeOther.rawMemory r' = NodeOther.rawMemory r
    /\ NodeOther.rawCpu r <= NodeOther.reservedCpu r' * nano < NodeOther.rawCpu r + nano
    /\ 0 <= NodeOther.reservedMemSlots r' <= 65535
    /\ (NodeOther.reservedMemSlots r' - 1) * Quantity_Value memSlotSize
       < Quantity_Value (NodeOther.rawMemory r)
       <= NodeOther.reservedMemSlots r' * Quantity_Value memSlotSize.
Proof.
  intros Hc Hc16 Hm Hz H63 Hfit.
  destruct (Quantity_Value_covers _ Hc) as (Hc0 & Hcc).
  destruct (Quantity_Value_covers _ Hm) as (Hm0 & _).
  set (m := Quantity_Value (NodeOther.rawMemory r)) in *.
  set (z := Quantity_Value memSlotSize) in *.
  set (slots := (m + z - 1) / z).
  assert (Hdm : m + z - 1 = z * slots + (m + z - 1) mod z) by (apply Z.div_mod; lia).
  pose proof (Z.mod_pos_bound (m + z - 1) z Hz) as Hmod.
  assert (Hslots : 0 <= slots <= 65535).
  { split; [apply Z.div_pos; lia|].
    assert (slots < 65536); [|lia]. apply Z.div_lt_upper_bound; lia. }
  unfold calculateReserved, div64. fold m z.
  destruct (Z.eqb_spec z 0) as [?|_]; [lia|]. cbn [bind].
  rewrite (wrap64_small (m + z)) by lia.
  rewrite (wrap64_small (m + z - 1)) by lia.
  rewrite Z.quot_div_nonneg by lia. fold slots.
  rewrite (wrap64_small slots) by lia.
  destruct (Z.gtb_spec slots (2 ^ 16 - 1)) as [?|_]; [lia|].
  eexists. split; [reflexivity|].
  cbn [NodeOther.rawCpu NodeOther.rawMemory NodeOther.reservedCpu NodeOther.reservedMemSlots].
  assert (Hw : forall x, 0 <= x < 2 ^ 16 -> wrap (H := uint16) x = x).
  { intros x Hx. apply Z.mod_small. exact Hx. }
  rewrite !Hw by lia.
  repeat split; try lia; nia.
Qed.

(** A node with 1.5 CPUs and 2.5 slots' worth of memory in use. *)
Lemma calculateReserved_covers_witness :
  let r := NodeOther.mk 1500000000 (5 * nano) 0 0 in
  (0 <= NodeOther.rawCpu r /\ Quantity_Value (NodeOther.rawCpu r) < 2 ^ 16
   /\ 0 <= NodeOther.rawMemory r /\ 0 < Quantity_Value (2 * nano)
   /\ Quantity_Value (NodeOther.rawMemory r) + Quantity_Value (2 * nano) < 2 ^ 63
   /\ Quantity_Value (NodeOther.rawMemory r) <= 65535 * Quantity_Value (2 * nano))
  /\ exists r',
       calculateReserved r (2 * nano) = Ok r'
       /\ NodeOther.reservedMemSlots r' = 3
       /\ NodeOther.rawCpu r <= NodeOther.reservedCpu r' * nano < NodeOther.rawCpu r + nano.
Proof.
  intros r.
  assert (H1 : 0 <= NodeOther.rawCpu r) by (subst r; simpl; lia).
  assert (H2 : Quantity_Value (NodeOther.rawCpu r) < 2 ^ 16) by (vm_compute; reflexivity).
  assert (H3 : 0 <= NodeOther.rawMemory r) by (vm_compute; discriminate).
  assert (H4 : 0 < Quantity_Value (2 * nano)) by (vm_compute; reflexivity).
  assert (H5 : Quantity_Value (NodeOther.rawMemory r) + Quantity_Value (2 * nano) < 2 ^ 63)
    by (vm_compute; reflexivity).
  assert (H6 : Quantity_Value (NodeOther.rawMemory r) <= 65535 * Quantity_Value (2 * nano))
    by (vm_compute; discriminate).
  split; [tauto|].
  destruct (calculateReserved_covers r (2 * nano) H1 H2 H3 H4 H5 H6)
    as (r' & Hrun & _ & _ & Hcpu & _ & _).
  exists r'. split; [exact Hrun|]. split; [|exact Hcpu].
  assert (Hr : calculateReserved r (2 * nano) = Ok (NodeOther.mk 1500000000 (5 * nano) 2 3))
    by (vm_compute; reflexivity).
  rewrite Hr in Hrun. injection Hrun as <-. reflexivity.
Defined.



(** X16. [subPod] reports a CPU underflow exactly when the pod holds more
    raw CPU than the node; it has no other way to fail with that message,
    and a pod with more raw memory than the node does not make it fail. *)
Theorem subPod_cpu_underflow_iff (r : nodeOtherResourceState) (memSlotSize : Quantity)
  (p : podOtherResourceState) :
  subPod r memSlotSize p = Panic underflowCpuMsg
  <-> NodeOther.rawCpu r < PodOther.rawCpu p.
Proof.
  split.
  - unfold subPod, Quantity_Cmp.
    destruct (Z.ltb_spec (NodeOther.rawCpu r) (PodOther.rawCpu p)) as [Hlt|_];
      [intros _; exact Hlt|].
    rewrite Z.ltb_irrefl, Z.eqb_refl.
    destruct (NodeOther.rawCpu r =? PodOther.rawCpu p); cbn [Z.eqb];
      intros Hbad; now apply calculateReserved_not_underflow in Hbad.
  - intros Hlt. unfold subPod, Quantity_Cmp.
    destruct (Z.ltb_spec (NodeOther.rawCpu r) (PodOther.rawCpu p)); [reflexivity | lia].
Qed.

(** * Further properties of migration start and VM deletion *)

Section MigrationAndDeletion.
Context {Resources Metrics migrationQueue config : Type}.
Variable removeIfPresent :
  migrationQueue -> gmap loc (PodState.podState Resources Metrics) -> loc
  -> migrationQueue * gmap loc Z.
Implicit Type s : Plugin.pluginState Resources Metrics migrationQueue config.
Implicit Type p : PodState.podState Resources Metrics.
Implicit Type n : NodeState.nodeState Resources migrationQueue.

(** The state [startMigration] leaves for a pod that is not migrating yet. *)
Lemma startMigration_state s (lp ln : loc) p n q written :
  Plugin.podStore s !! lp = Some p ->
  PodState.migrationState p = None ->
  PodState.node p = Some ln ->
  Plugin.nodeStore s !! ln = Some n ->
  removeIfPresent (NodeState.mq n) (Plugin.podStore s) lp = (q, written) ->
  startMigration removeIfPresent s (Some lp)
  = Ok (Plugin.mk (Plugin.podMap s) (Plugin.nodeMap s) (Plugin.otherPods s)
          (Plugin.maxTotalReservableCPU s) (Plugin.maxTotalReservableMemSlots s)
          (Plugin.conf s)
          (<[lp := PodState.set_migrationState (Some mkPodMigrationState)
                     (reindexed written lp p)]>
             (writeIndices written (Plugin.podStore s)))
          (<[ln := NodeState.set_vCPU
                     (Node.set_PressureAccountedFor
                        (uadd (Node.PressureAccountedFor (NodeState.vCPU n))
                              (uadd (Pod.Reserved (PodState.vCPU p))
                                    (Pod.CapacityPressure (PodState.vCPU p))))
                        (NodeState.vCPU n))
                     (NodeState.set_mq q n)]>
             (<[ln := NodeState.set_mq q n]> (Plugin.nodeStore s)))
          (Plugin.otherPodStore s),
        Some migrationUnimplemented).
Proof.
  intros Hp Hm Hnode Hn Hq. unfold startMigration, deref.
  rewrite Hp. cbn [bind]. unfold currentlyMigrating. rewrite Hm, Hnode, Hn. cbn [bind].
  rewrite Hq.
  cbn [Plugin.podStore Plugin.nodeStore Plugin.set_podStore Plugin.set_nodeStore].
  rewrite writeIndices_lookup, Hp. unfold reindexed.
  destruct (written !! lp) as [j|]; cbn [fmap option_fmap option_map bind];
    rewrite lookup_insert_eq; cbn [bind];
    cbn [PodState.node PodState.set_migrationState PodState.set_mqIndex];
    rewrite Hnode, lookup_insert_eq; cbn [bind];
    cbn [Plugin.podStore Plugin.nodeStore Plugin.set_podStore Plugin.set_nodeStore
         Plugin.podMap Plugin.nodeMap Plugin.otherPods Plugin.maxTotalReservableCPU
         Plugin.maxTotalReservableMemSlots Plugin.conf Plugin.otherPodStore
         PodState.vCPU NodeState.vCPU NodeState.set_mq];
    reflexivity.
Qed.

(** X17. A pod starts migrating once: after [startMigration] has marked a
    pod as migrating, a second [startMigration] on it is rejected with the
    already-migrating error and changes nothing, so the pod's resources are
    counted in [pressureAccountedFor] only once. *)
Theorem startMigration_once s (lp ln : loc) p n :
  Plugin.podStore s !! lp = Some p ->
  PodState.migrationState p = None ->
  PodState.node p = Some ln ->
  Plugin.nodeStore s !! ln = Some n ->
  exists s',
    startMigration removeIfPresent s (Some lp) = Ok (s', Some migrationUnimplemented)
    /\ startMigration removeIfPresent s' (Some lp) = Ok (s', Some alreadyMigrating).
Proof.
  intros Hp Hm Hnode Hn.
  destruct (removeIfPresent (NodeState.mq n) (Plugin.podStore s) lp) as [q written] eqn:Hq.
  eexists. split; [exact (startMigration_state s lp ln p n q written Hp Hm Hnode Hn Hq)|].
  unfold startMigration, deref. cbn [Plugin.podStore].
  rewrite lookup_insert_eq. cbn [bind]. reflexivity.
Qed.

(** X18. [startMigration] touches nothing but the pod, its node's queue and
    vCPU ledger, and queue indices: the maps of the plugin, every other
    node, the node's memory ledger and pod tables, and every other pod's
    ledgers, node and migration state are as before. *)
Theorem startMigration_frame s (lp ln : loc) p n :
  Plugin.podStore s !! lp = Some p ->
  PodState.migrationState p = None ->
  PodState.node p = Some ln ->
  Plugin.nodeStore s !! ln = Some n ->
  exists s' n',
    startMigration removeIfPresent s (Some lp) = Ok (s', Some migrationUnimplemented)
    /\ Plugin.podMap s' = Plugin.podMap s /\ Plugin.nodeMap s' = Plugin.nodeMap s
    /\ Plugin.otherPods s' = Plugin.otherPods s
    /\ Plugin.otherPodStore s' = Plugin.otherPodStore s
    /\ Plugin.conf s' = Plugin.conf s
    /\ (forall l, l <> ln -> Plugin.nodeStore s' !! l = Plugin.nodeStore s !! l)
    /\ Plugin.nodeStore s' !! ln = Some n'
    /\ NodeState.memSlots n' = NodeState.memSlots n
    /\ NodeState.pods n' = NodeState.pods n
    /\ NodeState.otherResources n' = NodeState.otherResources n
    /\ (forall l p0, l <> lp -> Plugin.podStore s !! l = Some p0 ->
          exists p0', Plugin.podStore s' !! l = Some p0'
            /\ PodState.vCPU p0' = PodState.vCPU p0
            /\ PodState.memSlots p0' = PodState.memSlots p0
            /\ PodState.migrationState p0' = PodState.migrationState p0
            /\ PodState.node p0' = PodState.node p0)
    /\ (forall l, Plugin.podStore s !! l = None -> Plugin.podStore s' !! l = None).
Proof.
  intros Hp Hm Hnode Hn.
  destruct (removeIfPresent (NodeState.mq n) (Plugin.podStore s) lp) as [q written] eqn:Hq.
  eexists _, _. split; [exact (startMigration_state s lp ln p n q written Hp Hm Hnode Hn Hq)|].
  cbn [Plugin.podStore Plugin.nodeStore Plugin.podMap Plugin.nodeMap Plugin.otherPods
       Plugin.conf Plugin.otherPodStore].
  do 5 (split; [reflexivity|]).
  split; [intros l Hl; now rewrite !lookup_insert_ne by congruence|].
  split; [apply lookup_insert_eq|].
  do 3 (split; [reflexivity|]).
  split.
  - intros l p0 Hl Hp0. rewrite lookup_insert_ne by congruence.
    rewrite writeIndices_lookup, Hp0. cbn [fmap option_fmap option_map].
    eexists. split; [reflexivity|].
    destruct (written !! l); repeat split.
  - intros l Hnone. destruct (decide (l = lp)) as [->|Hl]; [congruence|].
    rewrite lookup_insert_ne by congruence.
    rewrite writeIndices_lookup, Hnone. reflexivity.
Qed.

(** The state [handleVMDeletion] leaves for a pod that is in [podMap]. *)
Lemma handleVMDeletion_state s (name : PodName) (lp ln : loc) p n q written :
  Plugin.podMap s !! name = Some lp ->
  Plugin.podStore s !! lp = Some p ->
  PodState.node p = Some ln ->
  Plugin.nodeStore s !! ln = Some n ->
  removeIfPresent (NodeState.mq n) (Plugin.podStore s) lp = (q, written) ->
  handleVMDeletion removeIfPresent s name
  = Ok (Plugin.mk (delete name (Plugin.podMap s)) (Plugin.nodeMap s) (Plugin.otherPods s)
          (Plugin.maxTotalReservableCPU s) (Plugin.maxTotalReservableMemSlots s)
          (Plugin.conf s)
          (writeIndices written (Plugin.podStore s))
          (<[ln := NodeState.mk (NodeState.name n)
                     (node (handleDeleted
                              (makeResourceTransitioner (NodeState.vCPU n) (PodState.vCPU p))
                              (currentlyMigrating p)))
                     (node (handleDeleted
                              (makeResourceTransitioner (NodeState.memSlots n)
                                 (PodState.memSlots p))
                              (currentlyMigrating p)))
                     (NodeState.computeUnit n) (delete name (NodeState.pods n))
                     (NodeState.otherPods n) (NodeState.otherResources n) q]>
             (Plugin.nodeStore s))
          (Plugin.otherPodStore s)).
Proof.
  intros Hname Hp Hnode Hn Hq. unfold handleVMDeletion, deref, collectResourceTransition.
  rewrite Hname, Hp. cbn [bind]. rewrite Hnode, Hn. cbn [bind]. rewrite Hq. reflexivity.
Qed.

(** X19. [handleVMDeletion] of a pod that is in [podMap] takes it out of
    [podMap] and out of its node's [pods], leaves on the node's CPU and
    memory ledgers what [handleDeleted] leaves (with the pod's migration
    state as the flag), and touches no other entry of [podMap] and no other
    node. *)
Theorem handleVMDeletion_removes s (name : PodName) (lp ln : loc) p n :
  Plugin.podMap s !! name = Some lp ->
  Plugin.podStore s !! lp = Some p ->
  PodState.node p = Some ln ->
  Plugin.nodeStore s !! ln = Some n ->
  exists s' n',
    handleVMDeletion removeIfPresent s name = Ok s'
    /\ Plugin.podMap s' !! name = None
    /\ (forall name', name' <> name -> Plugin.podMap s' !! name' = Plugin.podMap s !! name')
    /\ Plugin.nodeStore s' !! ln = Some n'
    /\ NodeState.pods n' !! name = None
    /\ (forall name', name' <> name -> NodeState.pods n' !! name' = NodeState.pods n !! name')
    /\ NodeState.vCPU n'
       = node (handleDeleted
                 (makeResourceTransitioner (NodeState.vCPU n) (PodState.vCPU p))
                 (currentlyMigrating p))
    /\ NodeState.memSlots n'
       = node (handleDeleted
                 (makeResourceTransitioner (NodeState.memSlots n) (PodState.memSlots p))
                 (currentlyMigrating p))
    /\ (forall l, l <> ln -> Plugin.nodeStore s' !! l = Plugin.nodeStore s !! l).
Proof.
  intros Hname Hp Hnode Hn.
  destruct (removeIfPresent (NodeState.mq n) (Plugin.podStore s) lp) as [q written] eqn:Hq.
  eexists _, _.
  split; [exact (handleVMDeletion_state s name lp ln p n q written Hname Hp Hnode Hn Hq)|].
  cbn [Plugin.podMap Plugin.nodeStore].
  split; [apply lookup_delete_eq|].
  split; [intros name' Hne; now apply lookup_delete_ne|].
  split; [apply lookup_insert_eq|].
  cbn [NodeState.pods NodeState.vCPU NodeState.memSlots].
  split; [apply lookup_delete_eq|].
  split; [intros name' Hne; now apply lookup_delete_ne|].
  do 2 (split; [reflexivity|]).
  intros l Hl. now rewrite lookup_insert_ne by congruence.
Qed.

(** X20. Deleting a VM pod twice is deleting it once: a pod that is not in
    [podMap] leaves the state as it is, and after a deletion the pod is not
    in [podMap] any more. *)
Theorem handleVMDeletion_twice s s' (name : PodName) :
  handleVMDeletion removeIfPresent s name = Ok s' ->
  handleVMDeletion removeIfPresent s' name = Ok s'
  /\ (Plugin.podMap s !! name = None -> s' = s).
Proof.
  intros Hrun.
  assert (Hgone : Plugin.podMap s' !! name = None).
  { unfold handleVMDeletion in Hrun.
    destruct (Plugin.podMap s !! name) as [lp|] eqn:Hname;
      [|injection Hrun as <-; exact Hname].
    destruct (deref (Plugin.podStore s) (Some lp)) as [p|]; cbn [bind] in Hrun;
      [|discriminate].
    destruct (deref (Plugin.nodeStore s) (PodState.node p)) as [n|]; cbn [bind] in Hrun;
      [|discriminate].
    destruct (PodState.node p) as [ln|]; [|discriminate].
    destruct (removeIfPresent (NodeState.mq n) (Plugin.podStore s) lp) as [q written].
    injection Hrun as <-. cbn [Plugin.podMap]. apply lookup_delete_eq. }
  split.
  - unfold handleVMDeletion. now rewrite Hgone.
  - intros Hnone. unfold handleVMDeletion in Hrun. rewrite Hnone in Hrun.
    now injection Hrun as <-.
Qed.

(** X21. Deleting a pod after [startMigration] undoes the accounting of its
    migration on the CPU ledger: the node's vCPU ledger ends as if the pod
    had been deleted without ever migrating.  The memory ledger, which
    [startMigration] does not touch, ends as [handleDeleted] leaves it for a
    migrating pod. *)
Theorem startMigration_then_deletion s (name : PodName) (lp ln : loc) p n :
  Plugin.podMap s !! name = Some lp ->
  Plugin.podStore s !! lp = Some p ->
  PodState.migrationState p = None ->
  PodState.node p = Some ln ->
  Plugin.nodeStore s !! ln = Some n ->
  inT (Node.PressureAccountedFor (NodeState.vCPU n)) ->
  exists s1 s2 n2,
    startMigration removeIfPresent s (Some lp) = Ok (s1, Some migrationUnimplemented)
    /\ handleVMDeletion removeIfPresent s1 name = Ok s2
    /\ Plugin.podMap s2 !! name = None
    /\ Plugin.nodeStore s2 !! ln = Some n2
    /\ NodeState.vCPU n2
       = node (handleDeleted
                 (makeResourceTransitioner (NodeState.vCPU n) (PodState.vCPU p)) false)
    /\ NodeState.memSlots n2
       = node (handleDeleted
                 (makeResourceTransitioner (NodeState.memSlots n) (PodState.memSlots p)) true).
Proof.
  intros Hname Hp Hm Hnode Hn HA.
  destruct (removeIfPresent (NodeState.mq n) (Plugin.podStore s) lp) as [q written] eqn:Hq.
  pose proof (startMigration_state s lp ln p n q written Hp Hm Hnode Hn Hq) as Hstart.
  set (n1 := NodeState.set_vCPU
               (Node.set_PressureAccountedFor
                  (uadd (Node.PressureAccountedFor (NodeState.vCPU n))
                        (uadd (Pod.Reserved (PodState.vCPU p))
                              (Pod.CapacityPressure (PodState.vCPU p))))
                  (NodeState.vCPU n))
               (NodeState.set_mq q n)) in *.
  match type of Hstart with _ = Ok (?st, _) => set (s1 := st) in * end.
  set (p1 := PodState.set_migrationState (Some mkPodMigrationState) (reindexed written lp p)).
  assert (Hp1 : Plugin.podStore s1 !! lp = Some p1) by apply lookup_insert_eq.
  assert (Hnode1 : PodState.node p1 = Some ln).
  { subst p1. unfold reindexed. destruct (written !! lp); exact Hnode. }
  assert (Hv1 : PodState.vCPU p1 = PodState.vCPU p
                /\ PodState.memSlots p1 = PodState.memSlots p
                /\ currentlyMigrating p1 = true).
  { subst p1. unfold reindexed. destruct (written !! lp); repeat split. }
  destruct Hv1 as (Hv1 & Hms1 & Hmig1).
  assert (Hn1 : Plugin.nodeStore s1 !! ln = Some n1) by apply lookup_insert_eq.
  destruct (removeIfPresent (NodeState.mq n1) (Plugin.podStore s1) lp)
    as [q2 written2] eqn:Hq2.
  pose proof (handleVMDeletion_state s1 name lp ln p1 n1 q2 written2
                Hname Hp1 Hnode1 Hn1 Hq2) as Hdel.
  eexists _, _, _. split; [exact Hstart|]. split; [exact Hdel|].
  cbn [Plugin.podMap Plugin.nodeStore].
  split; [apply lookup_delete_eq|].
  split; [apply lookup_insert_eq|].
  cbn [NodeState.vCPU NodeState.memSlots]. rewrite Hv1, Hms1, Hmig1.
  subst n1. cbn [NodeState.vCPU NodeState.memSlots NodeState.set_vCPU NodeState.set_mq].
  split; [|reflexivity].
  destruct (NodeState.vCPU n) as [T S W R B C A], (PodState.vCPU p) as [pR pB pC pMin pMax].
  cbn [Node.PressureAccountedFor] in HA.
  unfold handleDeleted. ledger_simpl.
  assert (Hback : usub (uadd A (uadd pR pC)) (uadd pR pC) = A) by (push_wrap; wrap_back).
  rewrite Hback. reflexivity.
Qed.

End MigrationAndDeletion.

Lemma startMigration_once_witness :
  (Plugin.podStore (plugin1 None) !! 1%positive = Some (pod1 None)
   /\ PodState.migrationState (pod1 None) = None
   /\ PodState.node (pod1 None) = Some 1%positive
   /\ Plugin.nodeStore (plugin1 None) !! 1%positive = Some node1)
  /\ exists s',
       startMigration removeNothing (plugin1 None) (Some 1%positive)
         = Ok (s', Some migrationUnimplemented)
       /\ startMigration removeNothing s' (Some 1%positive) = Ok (s', Some alreadyMigrating).
Proof.
  assert (Hp : Plugin.podStore (plugin1 None) !! 1%positive = Some (pod1 None))
    by apply lookup_singleton_eq.
  assert (Hn : Plugin.nodeStore (plugin1 None) !! 1%positive = Some node1)
    by apply lookup_singleton_eq.
  split; [repeat split; assumption|].
  exact (startMigration_once removeNothing (plugin1 None) 1%positive 1%positive
           (pod1 None) node1 Hp eq_refl eq_refl Hn).
Defined.

Lemma startMigration_frame_witness :
  (Plugin.podStore (plugin1 None) !! 1%positive = Some (pod1 None)
   /\ PodState.migrationState (pod1 None) = None
   /\ PodState.node (pod1 None) = Some 1%positive
   /\ Plugin.nodeStore (plugin1 None) !! 1%positive = Some node1)
  /\ exists s' n',
       startMigration removeNothing (plugin1 None) (Some 1%positive)
         = Ok (s', Some migrationUnimplemented)
       /\ Plugin.podMap s' = Plugin.podMap (plugin1 None)
       /\ Plugin.nodeStore s' !! 1%positive = Some n'
       /\ NodeState.memSlots n' = Node.mk 8 1 6 2 0 0 0.
Proof.
  assert (Hp : Plugin.podStore (plugin1 None) !! 1%positive = Some (pod1 None))
    by apply lookup_singleton_eq.
  assert (Hn : Plugin.nodeStore (plugin1 None) !! 1%positive = Some node1)
    by apply lookup_singleton_eq.
  split; [repeat split; assumption|].
  destruct (startMigration_frame removeNothing (plugin1 None) 1%positive 1%positive
              (pod1 None) node1 Hp eq_refl eq_refl Hn)
    as (s' & n' & Hrun & Hmap & _ & _ & _ & _ & _ & Hn' & Hmem & _).
  exists s', n'. repeat split; assumption.
Defined.

Lemma handleVMDeletion_removes_witness :
  (Plugin.podMap (plugin1 None) !! ("default", "vm-1") = Some 1%positive
   /\ Plugin.podStore (plugin1 None) !! 1%positive = Some (pod1 None)
   /\ PodState.node (pod1 None) = Some 1%positive
   /\ Plugin.nodeStore (plugin1 None) !! 1%positive = Some node1)
  /\ exists s' n',
       handleVMDeletion removeNothing (plugin1 None) ("default", "vm-1") = Ok s'
       /\ Plugin.podMap s' !! ("default", "vm-1") = None
       /\ Plugin.nodeStore s' !! 1%positive = Some n'
       /\ NodeState.vCPU n' = Node.mk 8 1 6 0 0 0 0
       /\ NodeState.memSlots n' = Node.mk 8 1 6 0 0 0 0.
Proof.
  assert (Hname : Plugin.podMap (plugin1 None) !! ("default", "vm-1") = Some 1%positive)
    by apply lookup_singleton_eq.
  assert (Hp : Plugin.podStore (plugin1 None) !! 1%positive = Some (pod1 None))
    by apply lookup_singleton_eq.
  assert (Hn : Plugin.nodeStore (plugin1 None) !! 1%positive = Some node1)
    by apply lookup_singleton_eq.
  split; [repeat split; assumption|].
  destruct (handleVMDeletion_removes removeNothing (plugin1 None) ("default", "vm-1")
              1%positive 1%positive (pod1 None) node1 Hname Hp eq_refl Hn)
    as (s' & n' & Hrun & Hgone & _ & Hn' & _ & _ & Hv & Hm & _).
  exists s', n'. repeat split; assumption.
Defined.

Lemma handleVMDeletion_twice_witness :
  exists s',
    handleVMDeletion removeNothing (plugin1 None) ("default", "vm-1") = Ok s'
    /\ handleVMDeletion removeNothing s' ("default", "vm-1") = Ok s'.
Proof.
  destruct (handleVMDeletion removeNothing (plugin1 None) ("default", "vm-1"))
    as [s'|msg] eqn:Hrun; [|vm_compute in Hrun; discriminate].
  exists s'. split; [reflexivity|].
  exact (proj1 (handleVMDeletion_twice removeNothing (plugin1 None) s'
                  ("default", "vm-1") Hrun)).
Defined.

Lemma startMigration_then_deletion_witness :
  (Plugin.podMap (plugin1 None) !! ("default", "vm-1") = Some 1%positive
   /\ Plugin.podStore (plugin1 None) !! 1%positive = Some (pod1 None)
   /\ PodState.migrationState (pod1 None) = None
   /\ PodState.node (pod1 None) = Some 1%positive
   /\ Plugin.nodeStore (plugin1 None) !! 1%positive = Some node1
   /\ inT (Node.PressureAccountedFor (NodeState.vCPU node1)))
  /\ exists s1 s2 n2,
       startMigration removeNothing (plugin1 None) (Some 1%positive)
         = Ok (s1, Some migrationUnimplemented)
       /\ handleVMDeletion removeNothing s1 ("default", "vm-1") = Ok s2
       /\ Plugin.nodeStore s2 !! 1%positive = Some n2
       /\ NodeState.vCPU n2 = Node.mk 8 1 6 0 0 0 0
       /\ NodeState.memSlots n2 = Node.mk 8 1 6 0 0 0 65534.
Proof.
  assert (Hname : Plugin.podMap (plugin1 None) !! ("default", "vm-1") = Some 1%positive)
    by apply lookup_singleton_eq.
  assert (Hp : Plugin.podStore (plugin1 None) !! 1%positive = Some (pod1 None))
    by apply lookup_singleton_eq.
  assert (Hn : Plugin.nodeStore (plugin1 None) !! 1%positive = Some node1)
    by apply lookup_singleton_eq.
  assert (HA : inT (Node.PressureAccountedFor (NodeState.vCPU node1))) by inT_concrete.
  split; [do 5 (split; [first [assumption | reflexivity]|]); exact HA|].
  destruct (startMigration_then_deletion removeNothing (plugin1 None) ("default", "vm-1")
              1%positive 1%positive (pod1 None) node1 Hname Hp eq_refl eq_refl Hn HA)
    as (s1 & s2 & n2 & Hstart & Hdel & _ & Hn2 & Hv & Hm).
  exists s1, s2, n2. repeat split; assumption.
Defined.

(** * Further properties of the resources of non-VM pods *)

Lemma containerError_accepted (i : nat) (c : Container) :
  containerError i c = None <-> acceptedContainer c.
Proof.
  unfold containerError, acceptedContainer, Quantity_IsZero, Quantity_Equal, Quantity_Cmp.
  set (cl := ResourceList_Cpu (Limits c)). set (cr := ResourceList_Cpu (Requests c)).
  set (ml := ResourceList_Memory (Limits c)). set (mr := ResourceList_Memory (Requests c)).
  destruct (Z.eqb_spec cl 0), (Z.eqb_spec cr 0), (Z.ltb_spec cl cr), (Z.eqb_spec cl cr),
    (Z.eqb_spec ml 0), (Z.eqb_spec mr 0), (Z.ltb_spec ml mr), (Z.eqb_spec ml mr);
    cbn [negb andb Z.eqb]; split; try discriminate; try reflexivity;
    try (intros (? & [?|?] & ? & [?|?]); lia); try (intros _; repeat split; lia).
Qed.

(** One turn of the loop of [extractPodOtherPodResourceState]. *)
Lemma extractContainers_step (i : nat) (c : Container) (rest : list Container)
  (cpu mem : Quantity) :
  extractContainers i (c :: rest) cpu mem
  = match containerError i c with
    | Some e => (PodOther.mk 0 0, Some e)
    | None =>
        extractContainers (S i) rest (cpu + ResourceList_Cpu (Limits c))
          (mem + ResourceList_Memory (Limits c))
    end.
Proof.
  cbn [extractContainers]. unfold containerError, Quantity_Add.
  destruct (Quantity_IsZero (ResourceList_Cpu (Limits c))); [reflexivity|].
  destruct (negb (Quantity_IsZero (ResourceList_Cpu (Requests c)))
            && negb (Quantity_Equal (ResourceList_Cpu (Limits c))
                       (ResourceList_Cpu (Requests c)))); [reflexivity|].
  destruct (Quantity_IsZero (ResourceList_Memory (Limits c))); [reflexivity|].
  destruct (negb (Quantity_IsZero (ResourceList_Memory (Requests c)))
            && negb (Quantity_Equal (ResourceList_Memory (Limits c))
                       (ResourceList_Memory (Requests c)))); reflexivity.
Qed.

Lemma extractContainers_accepted (containers : list Container) (i : nat)
  (cpu mem : Quantity) :
  Forall acceptedContainer containers ->
  extractContainers i containers cpu mem
  = (PodOther.mk (cpu + sumCpuLimits containers) (mem + sumMemoryLimits containers), None).
Proof.
  intros Hall. revert i cpu mem.
  induction Hall as [|c rest Hc _ IH]; intros i cpu mem.
  - cbn. now rewrite !Z.add_0_r.
  - rewrite extractContainers_step.
    apply (containerError_accepted i) in Hc. rewrite Hc, IH.
    unfold sumCpuLimits, sumMemoryLimits. cbn [foldr]. f_equal. f_equal; lia.
Qed.

Lemma extractContainers_None (containers : list Container) (i : nat)
  (cpu mem : Quantity) :
  snd (extractContainers i containers cpu mem) = None -> Forall acceptedContainer containers.
Proof.
  revert i cpu mem. induction containers as [|c rest IH]; intros i cpu mem Hnone.
  - constructor.
  - rewrite extractContainers_step in Hnone.
    destruct (containerError i c) eqn:Hc; [discriminate|].
    constructor; [now apply (containerError_accepted i) | now apply IH in Hnone].
Qed.

(** X22. [extractPodOtherPodResourceState] returns without error exactly
    when every container has both limits set and no request that differs
    from its limit; the resources are then the sums of the containers' CPU
    and memory limits (zero for a pod without containers). *)
Theorem extractPodOtherPodResourceState_accepts (containers : list Container) :
  (snd (extractPodOtherPodResourceState containers) = None
   <-> Forall acceptedContainer containers)
  /\ (Forall acceptedContainer containers ->
      extractPodOtherPodResourceState containers
      = (PodOther.mk (sumCpuLimits containers) (sumMemoryLimits containers), None)).
Proof.
  unfold extractPodOtherPodResourceState. split; [split|].
  - apply extractContainers_None.
  - intros Hall. now rewrite extractContainers_accepted.
  - intros Hall. now rewrite extractContainers_accepted.
Qed.

(** X23. [extractPodOtherPodResourceState] stops at the first container it
    does not accept: it returns the zero resources and the error of that
    container, which carries its index and its name; a missing CPU limit is
    reported before anything else about the container. *)
Theorem extractPodOtherPodResourceState_first_error
  (accepted rest : list Container) (c : Container) :
  Forall acceptedContainer accepted -> ~ acceptedContainer c ->
  exists e,
    extractPodOtherPodResourceState (accepted ++ c :: rest) = (PodOther.mk 0 0, Some e)
    /\ containerError (length accepted) c = Some e
    /\ (exists kind, e = MissingLimit (length accepted) (Name c) kind
                     \/ e = RequestNotLimit (length accepted) (Name c) kind)
    /\ (ResourceList_Cpu (Limits c) = 0 ->
        e = MissingLimit (length accepted) (Name c) cpuResource).
Proof.
  intros Hall Hbad. unfold extractPodOtherPodResourceState.
  assert (Hgen : forall i cpu mem,
            extractContainers i (accepted ++ c :: rest) cpu mem
            = match containerError (i + length accepted) c with
              | Some e => (PodOther.mk 0 0, Some e)
              | None =>
                  extractContainers (S (i + length accepted)) rest
                    (cpu + sumCpuLimits accepted + ResourceList_Cpu (Limits c))
                    (mem + sumMemoryLimits accepted + ResourceList_Memory (Limits c))
              end).
  { induction Hall as [|a l Ha _ IH]; intros i cpu mem.
    - cbn [app length sumCpuLimits sumMemoryLimits foldr].
      rewrite extractContainers_step, Nat.add_0_r, !Z.add_0_r. reflexivity.
    - cbn [app length]. rewrite extractContainers_step.
      apply (containerError_accepted i) in Ha. rewrite Ha, IH.
      replace (S i + length l)%nat with (i + S (length l))%nat by lia.
      unfold sumCpuLimits, sumMemoryLimits. cbn [foldr].
      destruct (containerError (i + S (length l)) c); [reflexivity|].
      f_equal; lia. }
  rewrite Hgen. cbn [Nat.add].
  destruct (containerError (length accepted) c) as [e|] eqn:He.
  - exists e. split; [reflexivity|]. split; [reflexivity|]. split.
    + unfold containerError in He.
      repeat match type of He with
             | (if ?b then _ else _) = _ => destruct b
             end; try discriminate; injection He as <-; eauto.
    + intros Hzero. unfold containerError, Quantity_IsZero in He.
      rewrite Hzero in He. cbn [Z.eqb] in He. now injection He as <-.
  - apply containerError_accepted in He. contradiction.
Qed.

Lemma extractPodOtherPodResourceState_accepts_witness :
  let c1 := mkContainer "app" {[ "cpu" := 500000000 ]}
              {[ "cpu" := 500000000; "memory" := 2 * nano ]} in
  let c2 := mkContainer "sidecar" ∅ {[ "cpu" := 250000000; "memory" := 1 * nano ]} in
  Forall acceptedContainer [c1; c2]
  /\ extractPodOtherPodResourceState [c1; c2]
     = (PodOther.mk 750000000 (3 * nano), None).
Proof.
  intros c1 c2.
  assert (Hall : Forall acceptedContainer [c1; c2]).
  { repeat constructor; vm_compute; congruence. }
  split; [exact Hall|].
  exact (proj2 (extractPodOtherPodResourceState_accepts [c1; c2]) Hall).
Defined.

Lemma extractPodOtherPodResourceState_first_error_witness :
  let c1 := mkContainer "app" ∅ {[ "cpu" := 500000000; "memory" := 2 * nano ]} in
  let c2 := mkContainer "sidecar" ∅ {[ "cpu" := 250000000 ]} in
  (Forall acceptedContainer [c1] /\ ~ acceptedContainer c2)
  /\ exists e,
       extractPodOtherPodResourceState ([c1] ++ c2 :: [c1]) = (PodOther.mk 0 0, Some e)
       /\ containerError 1 c2 = Some e.
Proof.
  intros c1 c2.
  assert (Hall : Forall acceptedContainer [c1]).
  { repeat constructor; vm_compute; congruence. }
  assert (Hbad : ~ acceptedContainer c2).
  { intros (_ & _ & Hmem & _). apply Hmem. reflexivity. }
  split; [split; assumption|].
  destruct (extractPodOtherPodResourceState_first_error [c1] [c1] c2 Hall Hbad)
    as (e & Hrun & He & _).
  exists e. split; [exact Hrun | exact He].
Defined.

Lemma transitions_conserve_share_witness :
  let r := makeResourceTransitioner (Node.mk 8 1 6 6 0 0 0) (Pod.mk 3 0 0 1 8) in
  let r' := makeResourceTransitioner (Node.mk 8 1 6 8 0 1 0) (Pod.mk 5 0 1 1 8) in
  handleRequested r 6 false 1 = Ok r'
  /\ othersShare r' = othersShare r.
Proof.
  intros r r'.
  assert (Hrun : handleRequested r 6 false 1 = Ok r') by reflexivity.
  split; [exact Hrun|].
  exact (proj1 (proj2 (transitions_conserve_share r)) 6 false 1 r' Hrun).
Defined.
